(** * MeteoPredictor: the prediction resolution pipeline and the temperature
    trainer, embedded from [config.py], [data_collector.py], [predict.py],
    [app.py] and [train_model.py].

    Python values are embedded as follows.
    - A number is a rational [Q] (floats are read as the numbers they stand
      for); [None] and the float NaN are separate constructors of [pyval],
      because the code treats them differently ([x or 0], [int(x)],
      [x > 55]).
    - A dictionary with a fixed key set is a record; a key that may be missing
      is an [option] field.  The [categories] dictionary is a [gmap].
    - An exception is a value of [exn]; a function that may raise returns
      [outcome].  HTTP calls go through the [io] monad, which threads the list
      of requests sent so far.
    - [datetime.now()] is an argument. *)

From Stdlib Require Import ZArith QArith Qround Qabs Lia Sorted.
From Stdlib Require OrderedTypeEx.
From stdpp Require Import base option list gmap strings pretty.

Local Open Scope string_scope.
Local Open Scope list_scope.

(** ** Python values and exceptions *)

Inductive pyval : Type :=
| PyNone
| PyNaN
| PyNum (q : Q).

Inductive exn_kind : Type :=
| TypeError | ValueError | IndexError | KeyError | RequestException
| FileNotFoundError.

Record exn : Type := Exn { exn_kind_of : exn_kind; exn_msg : string }.

Inductive outcome (A : Type) : Type :=
| Return (a : A)
| Raise (e : exn).
Arguments Return {A} a.
Arguments Raise {A} e.

Definition obind {A B} (m : outcome A) (k : A -> outcome B) : outcome B :=
  match m with
  | Return a => k a
  | Raise e => Raise e
  end.

Declare Scope outcome_scope.
Delimit Scope outcome_scope with out.
Notation "'let*' x ':=' m 'in' k" := (obind m (fun x => k))
  (at level 10, x pattern, m at level 100, k at level 200) : outcome_scope.

Definition Qltb (a b : Q) : bool :=
  (Qnum a * Zpos (Qden b) <? Qnum b * Zpos (Qden a))%Z.

Definition of_int (z : Z) : pyval := PyNum (inject_Z z).

(** Truth value of a number or [None]: [None], [0] and [0.0] are false, NaN is
    true. *)
Definition py_truthy (v : pyval) : bool :=
  match v with
  | PyNone => false
  | PyNaN => true
  | PyNum q => negb (Qeq_bool q 0)
  end.

(** [v or 0] *)
Definition or_zero (v : pyval) : pyval :=
  if py_truthy v then v else PyNum 0.

(** [v > c] for a numeric literal [c]; comparing [None] raises, comparing NaN
    is false. *)
Definition py_gt (v : pyval) (c : Q) : outcome bool :=
  match v with
  | PyNone =>
      Raise (Exn TypeError "'>' not supported between instances of 'NoneType' and 'int'")
  | PyNaN => Return false
  | PyNum q => Return (Qltb c q)
  end.

(** [float(v)] *)
Definition py_float (v : pyval) : outcome pyval :=
  match v with
  | PyNone =>
      Raise (Exn TypeError "float() argument must be a string or a real number, not 'NoneType'")
  | _ => Return v
  end.

(** [int(v)]: truncation towards zero; NaN has no integer value. *)
Definition py_int (v : pyval) : outcome Z :=
  match v with
  | PyNone =>
      Raise (Exn TypeError "int() argument must be a string, a bytes-like object or a real number, not 'NoneType'")
  | PyNaN => Raise (Exn ValueError "cannot convert float NaN to integer")
  | PyNum q => Return (Z.quot (Qnum q) (Zpos (Qden q)))
  end.

(** [l[i]] with Python's negative indices. *)
Definition py_index {A} (l : list A) (i : Z) : outcome A :=
  let j := if (i <? 0)%Z then (Z.of_nat (length l) + i)%Z else i in
  if (j <? 0)%Z then Raise (Exn IndexError "list index out of range")
  else match l !! Z.to_nat j with
       | Some x => Return x
       | None => Raise (Exn IndexError "list index out of range")
       end.

(** [round(q, 2)], ties to even. *)
Definition round_half_even (q : Q) : Z :=
  let f := Qfloor q in
  match ((q - inject_Z f) ?= (1 # 2))%Q with
  | Lt => f
  | Gt => (f + 1)%Z
  | Eq => if Z.even f then f else (f + 1)%Z
  end.

Definition round2 (q : Q) : Q :=
  Qred (inject_Z (round_half_even (q * 100)%Q) / 100)%Q.

Record datetime : Type := Datetime {
  dt_year : Z; dt_month : Z; dt_day : Z;
  dt_hour : Z; dt_minute : Z; dt_second : Z
}.

(** ** config.py *)

Module Config.
(** [os.getenv('DEFAULT_CITY', 'Delhi')] with the variable unset. *)
Definition DEFAULT_CITY : string := "Delhi".
Definition TEMP_MODEL_FILE : string := "models/temperature_model.joblib".
Definition WEATHER_MODEL_FILE : string := "models/weather_classifier.joblib".
Definition HUMIDITY_MODEL_FILE : string := "models/humidity_model.joblib".
Definition SCALER_FILE : string := "models/scaler.joblib".
Definition CITIES : list string :=
  ["Delhi"; "Mumbai"; "Bangalore"; "Chennai"; "Kolkata"; "Hyderabad"; "Pune";
   "Ahmedabad"].
End Config.

(** ** data_collector.py *)

Module DataCollector.

(** The JSON bodies of the three endpoints, typed by the keys the collector
    reads; a key that the service may leave out is an [option]. *)
Record geo_entry : Type := GeoEntry { lat : Q; lon : Q }.

Record main_block : Type := MainBlock {
  m_temp : option Q; m_feels_like : option Q; m_temp_min : option Q;
  m_temp_max : option Q; m_pressure : option Q; m_humidity : option Q
}.
Record wind_block : Type := WindBlock { w_speed : option Q; w_deg : option Q }.
Record clouds_block : Type := CloudsBlock { c_all : option Q }.
Record weather_entry : Type := WeatherEntry {
  we_main : option string; we_description : option string
}.
Record weather_json : Type := WeatherJson {
  wj_main : option main_block; wj_wind : option wind_block;
  wj_clouds : option clouds_block; wj_weather : option (list weather_entry)
}.

Record aqi_block : Type := AqiBlock { a_aqi : option Z }.
Record components_block : Type := ComponentsBlock {
  k_pm2_5 : option Q; k_pm10 : option Q; k_co : option Q;
  k_no2 : option Q; k_o3 : option Q; k_so2 : option Q
}.
Record air_entry : Type := AirEntry {
  ae_main : option aqi_block; ae_components : option components_block
}.
Record air_json : Type := AirJson { aj_list : option (list air_entry) }.

(** The empty dictionary [{}] at each of these types. *)
Definition no_main : main_block := MainBlock None None None None None None.
Definition no_wind : wind_block := WindBlock None None.
Definition no_clouds : clouds_block := CloudsBlock None.
Definition no_weather : weather_entry := WeatherEntry None None.
Definition no_aqi : aqi_block := AqiBlock None.
Definition no_components : components_block :=
  ComponentsBlock None None None None None None.
Definition no_air : air_entry := AirEntry None None.

(** The dictionary built by [_parse_data]. *)
Record reading : Type := Reading {
  timestamp : datetime; city : string;
  temperature : pyval; feels_like : pyval; temp_min : pyval; temp_max : pyval;
  pressure : pyval; humidity : pyval; wind_speed : pyval; wind_deg : pyval;
  clouds : pyval;
  weather_main : option string; weather_description : option string;
  aqi : option Z;
  pm2_5 : pyval; pm10 : pyval; co : pyval; no2 : pyval; o3 : pyval; so2 : pyval
}.

(** The outside world: each endpoint answers with a body or fails
    ([requests.get] or [raise_for_status] raises); [clock] is what
    [datetime.now()] returns while parsing. *)
Record world : Type := World {
  geo_api : string -> option (list geo_entry);
  weather_api : pyval -> pyval -> option weather_json;
  air_pollution_api : pyval -> pyval -> option air_json;
  clock : datetime
}.

Inductive request : Type :=
| GeoRequest (city_name : string)
| WeatherRequest (lat lon : pyval)
| AirPollutionRequest (lat lon : pyval).

(** A computation that sends requests: it extends the log of requests. *)
Definition io (A : Type) : Type := list request -> A * list request.

(** [dict.get(key)] on a value that came out of JSON *)
Definition get (o : option Q) : pyval :=
  match o with
  | Some q => PyNum q
  | None => PyNone
  end.

Definition get_coordinates (w : world) (city_name : string) : io (pyval * pyval) :=
  fun log =>
    let log := log ++ [GeoRequest city_name] in
    match geo_api w city_name with
    | Some (d :: _) => ((PyNum (lat d), PyNum (lon d)), log)
    | Some [] => ((PyNone, PyNone), log)
    | None => ((PyNone, PyNone), log)
    end.

Definition _parse_data (now : datetime) (city : string)
    (weather_data : weather_json) (aqi_data : air_json) : option reading :=
  let main := default no_main (wj_main weather_data) in
  let wind := default no_wind (wj_wind weather_data) in
  let clouds := default no_clouds (wj_clouds weather_data) in
  let parsed :=
    (let* weather := py_index (default [no_weather] (wj_weather weather_data)) 0 in
     let* aqi_list := py_index (default [no_air] (aj_list aqi_data)) 0 in
     let aqi_main := default no_aqi (ae_main aqi_list) in
     let components := default no_components (ae_components aqi_list) in
     Return {|
       timestamp := now; city := city;
       temperature := get (m_temp main);
       feels_like := get (m_feels_like main);
       temp_min := get (m_temp_min main);
       temp_max := get (m_temp_max main);
       pressure := get (m_pressure main);
       humidity := get (m_humidity main);
       wind_speed := get (w_speed wind);
       wind_deg := get (w_deg wind);
       clouds := get (c_all clouds);
       weather_main := we_main weather;
       weather_description := we_description weather;
       aqi := a_aqi aqi_main;
       pm2_5 := get (k_pm2_5 components);
       pm10 := get (k_pm10 components);
       co := get (k_co components);
       no2 := get (k_no2 components);
       o3 := get (k_o3 components);
       so2 := get (k_so2 components)
     |})%out in
  match parsed with
  | Return r => Some r
  | Raise _ => None
  end.

Definition fetch_weather_data (w : world) (city_name : string) : io (option reading) :=
  fun log =>
    let '((lat, lon), log) := get_coordinates w city_name log in
    if negb (py_truthy lat) || negb (py_truthy lon) then (None, log)
    else
      let log := log ++ [WeatherRequest lat lon] in
      match weather_api w lat lon with
      | None => (None, log)
      | Some weather_data =>
          let log := log ++ [AirPollutionRequest lat lon] in
          match air_pollution_api w lat lon with
          | None => (None, log)
          | Some aqi_data => (_parse_data (clock w) city_name weather_data aqi_data, log)
          end
      end.

End DataCollector.

(** ** predict.py *)

Module Predict.
Import DataCollector.

(** A loaded artifact is used only through [predict] (or [transform]) on one
    row of features; what it computes is not fixed by this repository, and
    it may raise. *)
Definition regressor : Type := list pyval -> outcome Q.
Definition classifier : Type := list pyval -> outcome Z.
Definition scaler_t : Type := list pyval -> outcome (list pyval).

(** The [models/] directory: each of the four files is there or not. *)
Record model_dir : Type := ModelDir {
  temperature_model_joblib : option regressor;
  weather_classifier_joblib : option classifier;
  humidity_model_joblib : option regressor;
  scaler_joblib : option scaler_t
}.

Definition joblib_load {A} (path : string) (file : option A) : outcome A :=
  match file with
  | Some a => Return a
  | None => Raise (Exn FileNotFoundError ("No such file or directory: " +:+ path))
  end.

(** The attributes of a [WeatherPredictor] that [load_models] sets; [None]
    is Python's [None], a loaded artifact is a true value. *)
Record predictor : Type := Predictor {
  temp_model : option regressor;
  weather_clf : option classifier;
  humidity_model : option regressor;
  scaler : option scaler_t
}.

Definition load_models (dir : model_dir) : outcome predictor :=
  let loaded :=
    (let* temp_model := joblib_load Config.TEMP_MODEL_FILE (temperature_model_joblib dir) in
     let* weather_clf := joblib_load Config.WEATHER_MODEL_FILE (weather_classifier_joblib dir) in
     let* humidity_model := joblib_load Config.HUMIDITY_MODEL_FILE (humidity_model_joblib dir) in
     let* scaler := joblib_load Config.SCALER_FILE (scaler_joblib dir) in
     Return (Predictor (Some temp_model) (Some weather_clf) (Some humidity_model)
                       (Some scaler)))%out in
  match loaded with
  | Return self => Return self
  | Raise e =>
      match exn_kind_of e with
      | FileNotFoundError => Return (Predictor None None None None)
      | _ => Raise e
      end
  end.

Definition categories : gmap Z string :=
  {[ 1%Z := "Good"; 2%Z := "Fair"; 3%Z := "Moderate"; 4%Z := "Poor";
     5%Z := "Very Poor" ]}.

(** [categories.get(aqi, "Unknown")]; [None] is not a key of [categories]. *)
Definition get_aqi_category (aqi : option Z) : string :=
  default "Unknown" (aqi ≫= (categories !!.)).

Definition advice_poor : string :=
  "⚠️ Air quality is poor. Avoid outdoor activities. Wear a mask if going outside.".
Definition advice_moderate : string :=
  "⚡ Moderate air quality. Sensitive groups should limit outdoor activities.".
Definition advice_good : string :=
  "✅ Air quality is good. Safe for outdoor activities.".

Definition get_health_advice (aqi : option Z) (pm25 : pyval) : outcome string :=
  (let* aqi :=
     match aqi with
     | Some a => Return a
     | None =>
         Raise (Exn TypeError "'>=' not supported between instances of 'NoneType' and 'int'")
     end in
   let* poor :=
     if (4 <=? aqi)%Z then Return true
     else if py_truthy pm25 then py_gt pm25 55
     else Return false in
   if (poor : bool) then Return advice_poor
   else if (aqi =? 3)%Z then Return advice_moderate
   else Return advice_good)%out.

Definition features_temp (now : datetime) (live_data : reading) : list pyval :=
  [ feels_like live_data; temp_min live_data; temp_max live_data;
    pressure live_data; humidity live_data; wind_speed live_data;
    clouds live_data; or_zero (pm2_5 live_data); or_zero (pm10 live_data);
    of_int (dt_hour now); of_int (dt_month now) ].

(** An absent [aqi] is [None] in the array. *)
Definition aqi_value (aqi : option Z) : pyval :=
  match aqi with
  | Some a => of_int a
  | None => PyNone
  end.

Definition features_weather (now : datetime) (live_data : reading) : list pyval :=
  [ temperature live_data; humidity live_data; pressure live_data;
    wind_speed live_data; clouds live_data; or_zero (pm2_5 live_data);
    aqi_value (aqi live_data); of_int (dt_hour now); of_int (dt_month now) ].

Definition features_humidity (now : datetime) (live_data : reading) : list pyval :=
  [ temperature live_data; pressure live_data; wind_speed live_data;
    clouds live_data; or_zero (pm2_5 live_data);
    of_int (dt_hour now); of_int (dt_month now) ].

(** The ["current"] dictionary, shared with the fallback of [app.py]. *)
Record current_block : Type := Current {
  cur_temperature : pyval; cur_feels_like : pyval; cur_humidity : pyval;
  cur_pressure : pyval; cur_wind_speed : pyval; cur_clouds : pyval;
  cur_weather : option string; cur_description : option string;
  cur_aqi : option Z; cur_aqi_category : string;
  cur_pm2_5 : pyval; cur_pm10 : pyval
}.

(** The ["ml_predictions"] dictionary; the last two keys may be missing. *)
Record ml_block : Type := Ml {
  predicted_temperature : Q;
  temp_difference : pyval;
  predicted_humidity : option Q;
  predicted_weather : option string
}.

(** The dictionary returned on success; ["ml_predictions"] and
    ["health_advice"] are keys that may be missing. *)
Record prediction : Type := Prediction {
  p_city : string;
  p_timestamp : string;
  p_current : current_block;
  p_ml_predictions : option ml_block;
  p_health_advice : option string
}.

(** What [predict_for_city] returns: [{"error": ...}] or the predictions. *)
Inductive result : Type :=
| ErrorDict (error : string)
| Predictions (p : prediction).

(** [str(d)] for a [datetime] without microseconds. *)
Definition zfill2 (z : Z) : string :=
  if (z <? 10)%Z then "0" +:+ pretty z else pretty z.

Definition str_datetime (d : datetime) : string :=
  pretty (dt_year d) +:+ "-" +:+ zfill2 (dt_month d) +:+ "-" +:+ zfill2 (dt_day d)
  +:+ " " +:+ zfill2 (dt_hour d) +:+ ":" +:+ zfill2 (dt_minute d) +:+ ":"
  +:+ zfill2 (dt_second d).

(** [x - v] for a float [x]; NaN is absorbing, [None] is a type error. *)
Definition py_sub (x : Q) (v : pyval) : outcome pyval :=
  match v with
  | PyNone =>
      Raise (Exn TypeError "unsupported operand type(s) for -: 'float' and 'NoneType'")
  | PyNaN => Return PyNaN
  | PyNum t => Return (PyNum (x - t)%Q)
  end.

Definition py_round2 (v : pyval) : pyval :=
  match v with
  | PyNum q => PyNum (round2 q)
  | _ => v
  end.

Definition weather_classes : list string :=
  ["Clear"; "Clouds"; "Rain"; "Drizzle"; "Snow"; "Thunderstorm"].

(** The block under [# ML Predictions]: [None] when the key
    ["ml_predictions"] is not set. *)
Definition ml_predictions (self : predictor) (now : datetime) (live_data : reading)
    : outcome (option ml_block) :=
  match temp_model self, scaler self with
  | Some temp_model, Some scaler =>
      (let* features_temp_scaled := scaler (features_temp now live_data) in
       let* pred_temp := temp_model features_temp_scaled in
       let* diff := py_sub pred_temp (temperature live_data) in
       let ml := Ml (round2 pred_temp) (py_round2 diff) None None in
       let* ml :=
         match humidity_model self with
         | Some humidity_model =>
             let* pred_humidity := humidity_model (features_humidity now live_data) in
             Return (Ml (predicted_temperature ml) (temp_difference ml)
                        (Some (round2 pred_humidity)) (predicted_weather ml))
         | None => Return ml
         end in
       let* ml :=
         match weather_clf self with
         | Some weather_clf =>
             let* pred_weather_code := weather_clf (features_weather now live_data) in
             if (pred_weather_code <? Z.of_nat (length weather_classes))%Z then
               let* cls := py_index weather_classes pred_weather_code in
               Return (Ml (predicted_temperature ml) (temp_difference ml)
                          (predicted_humidity ml) (Some cls))
             else Return ml
         | None => Return ml
         end in
       Return (Some ml))%out
  | _, _ => Return None
  end.

(** The part of [predict_for_city] after the reading has been fetched. *)
Definition predict_from (self : predictor) (now : datetime) (city_name : string)
    (live_data : reading) : outcome prediction :=
  let current :=
    {| cur_temperature := temperature live_data;
       cur_feels_like := feels_like live_data;
       cur_humidity := humidity live_data;
       cur_pressure := pressure live_data;
       cur_wind_speed := wind_speed live_data;
       cur_clouds := clouds live_data;
       cur_weather := weather_main live_data;
       cur_description := weather_description live_data;
       cur_aqi := aqi live_data;
       cur_aqi_category := get_aqi_category (aqi live_data);
       cur_pm2_5 := pm2_5 live_data;
       cur_pm10 := pm10 live_data |} in
  (let* ml := ml_predictions self now live_data in
   let* advice := get_health_advice (aqi live_data) (pm2_5 live_data) in
   Return {| p_city := city_name;
             p_timestamp := str_datetime (timestamp live_data);
             p_current := current;
             p_ml_predictions := ml;
             p_health_advice := Some advice |})%out.

Definition predict_for_city (self : predictor) (w : world) (now : datetime)
    (city_name : string) : io (outcome result) :=
  fun log =>
    let '(live_data, log) := fetch_weather_data w city_name log in
    match live_data with
    | None => (Return (ErrorDict ("Could not fetch data for " +:+ city_name)), log)
    | Some live_data =>
        (match predict_from self now city_name live_data with
         | Return p => Return (Predictions p)
         | Raise e => Raise e
         end, log)
    end.

End Predict.

(** ** app.py *)

Module App.
Import DataCollector.

(** One line of [weather_data.csv] as [pandas.read_csv] yields it; a cell that
    is empty in the file is [None] here (pandas reads it as NaN). *)
Record row : Type := Row {
  col_timestamp : string; col_city : string;
  col_temperature : option Q; col_feels_like : option Q; col_temp_min : option Q;
  col_temp_max : option Q; col_pressure : option Q; col_humidity : option Q;
  col_wind_speed : option Q; col_wind_deg : option Q; col_clouds : option Q;
  col_weather_main : option string; col_weather_description : option string;
  col_aqi : option Q;
  col_pm2_5 : option Q; col_pm10 : option Q; col_co : option Q; col_no2 : option Q;
  col_o3 : option Q; col_so2 : option Q
}.

(** [latest[column]] for a numeric column *)
Definition cell (c : option Q) : pyval :=
  match c with
  | Some q => PyNum q
  | None => PyNaN
  end.

(** [str(cell)] of a text cell *)
Definition str_cell (c : option string) : string := default "nan" c.

(** What is at [Config.DATASET_FILE] when the application starts. *)
Inductive dataset_file : Type :=
| NoFile
| Unreadable (e : exn)
| Csv (rows : list row).

(** The module globals [sample_data] and [has_data]. *)
Record globals : Type := Globals {
  sample_data : option (list row);
  has_data : bool
}.

(** The block under [# LOAD SAMPLE DATA (SAFE)]. *)
Definition load_sample_data (f : dataset_file) : globals :=
  match f with
  | Csv rows => Globals (Some rows) (0 <? length rows)%nat
  | NoFile => Globals None false
  | Unreadable _ => Globals None false
  end.

Definition categories : gmap Z string :=
  {[ 1%Z := "Good"; 2%Z := "Fair"; 3%Z := "Moderate"; 4%Z := "Poor";
     5%Z := "Very Poor" ]}.

Definition get_aqi_category (aqi : option Z) : string :=
  default "Unknown" (aqi ≫= (categories !!.)).

Definition get_sample_city_data (g : globals) (city : string)
    : outcome (option Predict.prediction) :=
  if negb (has_data g) then Return None
  else
    (let* sample_data :=
       match sample_data g with
       | Some rows => Return rows
       | None => Raise (Exn TypeError "'NoneType' object is not subscriptable")
       end in
     let city_data := filter (fun r => col_city r = city) sample_data in
     let city_data :=
       match city_data with
       | [] => sample_data
       | _ :: _ => city_data
       end in
     let* latest := py_index city_data (-1) in
     let* temperature := py_float (cell (col_temperature latest)) in
     let* feels_like := py_float (cell (col_feels_like latest)) in
     let* humidity := py_int (cell (col_humidity latest)) in
     let* pressure := py_int (cell (col_pressure latest)) in
     let* wind_speed := py_float (cell (col_wind_speed latest)) in
     let* clouds := py_int (cell (col_clouds latest)) in
     let* aqi := py_int (cell (col_aqi latest)) in
     let* aqi' := py_int (cell (col_aqi latest)) in
     let* pm2_5 := py_float (cell (col_pm2_5 latest)) in
     let* pm10 := py_float (cell (col_pm10 latest)) in
     Return (Some {|
       Predict.p_city := city;
       Predict.p_timestamp := col_timestamp latest;
       Predict.p_current := {|
         Predict.cur_temperature := temperature;
         Predict.cur_feels_like := feels_like;
         Predict.cur_humidity := of_int humidity;
         Predict.cur_pressure := of_int pressure;
         Predict.cur_wind_speed := wind_speed;
         Predict.cur_clouds := of_int clouds;
         Predict.cur_weather := Some (str_cell (col_weather_main latest));
         Predict.cur_description := Some (str_cell (col_weather_description latest));
         Predict.cur_aqi := Some aqi;
         Predict.cur_aqi_category := get_aqi_category (Some aqi');
         Predict.cur_pm2_5 := pm2_5;
         Predict.cur_pm10 := pm10 |};
       Predict.p_ml_predictions := None;
       Predict.p_health_advice := None |}))%out.

(** The JSON answer and its HTTP status. *)
Inductive body : Type :=
| Data (data : Predict.prediction)
| Error (error : string).

Record response : Type := Response { status : nat; success : bool; payload : body }.

Definition no_data_error : string := "No data available. Run generate_sample_data.py.".

(** The part of [predict()] under [# Fallback to sample data], with the
    outer [except Exception] that answers 500. *)
Definition fallback_response (predictor : Predict.predictor) (g : globals)
    (city : string) : response :=
  let answer :=
    (let* fallback := get_sample_city_data g city in
     match fallback with
     | Some fallback =>
         let* advice :=
           Predict.get_health_advice
             (Predict.cur_aqi (Predict.p_current fallback))
             (Predict.cur_pm2_5 (Predict.p_current fallback)) in
         Return (Response 200 true
           (Data {| Predict.p_city := Predict.p_city fallback;
                    Predict.p_timestamp := Predict.p_timestamp fallback;
                    Predict.p_current := Predict.p_current fallback;
                    Predict.p_ml_predictions := Predict.p_ml_predictions fallback;
                    Predict.p_health_advice := Some advice |}))
     | None => Return (Response 404 false (Error no_data_error))
     end)%out in
  match answer with
  | Return r => r
  | Raise e => Response 500 false (Error (exn_msg e))
  end.

(** [predict()]; [data] is the ["city"] key of the posted JSON object, if
    there is one. *)
Definition predict (predictor : Predict.predictor) (g : globals) (w : world)
    (now : datetime) (data : option string) : io response :=
  fun log =>
    let city := default Config.DEFAULT_CITY data in
    let '(live, log) := Predict.predict_for_city predictor w now city log in
    match live with
    | Return (Predict.Predictions predictions) =>
        (Response 200 true (Data predictions), log)
    | _ => (fallback_response predictor g city, log)
    end.

End App.

(** ** train_model.py *)

Module TrainModel.

(** A line of the frame returned by [load_data]: missing numbers have been
    filled in and [hour] and [month] derived. *)
Record sample : Type := Sample {
  s_temperature : Q; s_feels_like : Q; s_temp_min : Q; s_temp_max : Q;
  s_pressure : Q; s_humidity : Q; s_wind_speed : Q; s_clouds : Q;
  s_pm2_5 : Q; s_pm10 : Q; s_hour : Q; s_month : Q
}.

Definition Qabs_diff (a b : Q) : Q := Qabs (a - b)%Q.

Definition Qsum (l : list Q) : Q := foldr Qplus 0%Q l.

(** [sklearn.metrics.mean_absolute_error]: refuses empty input and columns
    of different lengths. *)
Definition mean_absolute_error (y_true y_pred : list Q) : outcome Q :=
  if negb (length y_true =? length y_pred)%nat then
    Raise (Exn ValueError "Found input variables with inconsistent numbers of samples")
  else if (length y_true =? 0)%nat then
    Raise (Exn ValueError "Found array with 0 sample(s) while a minimum of 1 is required")
  else
    Return (Qred (Qsum (zip_with Qabs_diff y_true y_pred)
                  / inject_Z (Z.of_nat (length y_true)))%Q).

(** [mae < best_score], where [best_score] starts as [float('inf')], here
    [None]. *)
Definition below (mae : Q) (best_score : option Q) : bool :=
  match best_score with
  | None => true
  | Some b => Qltb mae b
  end.

Section Trainer.
(** scikit-learn: the split, the scaler and the two learners are taken as
    they come; only how the trainer combines them is modelled. *)
Variable fitted : Type.
Variable fitted_scaler : Type.
Variable train_test_split :
  list (list Q) -> list Q -> forall (test_size : Q) (random_state : Z),
  list (list Q) * list (list Q) * list Q * list Q.
Variable scaler_fit : list (list Q) -> fitted_scaler.
Variable scaler_transform : fitted_scaler -> list (list Q) -> list (list Q).
Variable RandomForestRegressor :
  forall (n_estimators max_depth random_state : Z), list (list Q) -> list Q -> fitted.
Variable GradientBoostingRegressor :
  forall (n_estimators max_depth random_state : Z), list (list Q) -> list Q -> fitted.
Variable model_predict : fitted -> list (list Q) -> list Q.

Definition features (r : sample) : list Q :=
  [ s_feels_like r; s_temp_min r; s_temp_max r; s_pressure r; s_humidity r;
    s_wind_speed r; s_clouds r; s_pm2_5 r; s_pm10 r; s_hour r; s_month r ].

(** The [models] dictionary, in insertion order; an entry is fitted by
    applying it to the training data. *)
Definition models : list (string * (list (list Q) -> list Q -> fitted)) :=
  [ ("RandomForest", RandomForestRegressor 200 15 42);
    ("GradientBoosting", GradientBoostingRegressor 150 10 42) ].

(** The [for name, model in models.items()] loop. *)
Fixpoint evaluate (X_train_scaled X_test_scaled : list (list Q))
    (y_train y_test : list Q)
    (todo : list (string * (list (list Q) -> list Q -> fitted)))
    (best_model : option fitted) (best_score : option Q)
    : outcome (option fitted * option Q) :=
  match todo with
  | [] => Return (best_model, best_score)
  | (name, model) :: todo =>
      let model := model X_train_scaled y_train in
      let y_pred := model_predict model X_test_scaled in
      (let* mae := mean_absolute_error y_test y_pred in
       if below mae best_score then
         evaluate X_train_scaled X_test_scaled y_train y_test todo (Some model) (Some mae)
       else
         evaluate X_train_scaled X_test_scaled y_train y_test todo best_model best_score)%out
  end.

(** What [joblib.dump] has written when [train_temperature_model] ends. *)
Record saved : Type := Saved {
  TEMP_MODEL_FILE : option fitted;
  SCALER_FILE : fitted_scaler
}.

Definition train_temperature_model (df : list sample) : outcome saved :=
  let X := map features df in
  let y := map s_temperature df in
  let '(X_train, X_test, y_train, y_test) := train_test_split X y (1 # 5)%Q 42%Z in
  let scaler := scaler_fit X_train in
  let X_train_scaled := scaler_transform scaler X_train in
  let X_test_scaled := scaler_transform scaler X_test in
  (let* best :=
     evaluate X_train_scaled X_test_scaled y_train y_test models None None in
   Return (Saved (fst best) scaler))%out.
End Trainer.

(** [LabelEncoder]: [classes_] is the sorted list of the distinct labels, a
    label is encoded as its position in it. *)
Fixpoint insert_label (s : string) (classes : list string) : list string :=
  match classes with
  | [] => [s]
  | c :: rest =>
      match String.compare s c with
      | Lt => s :: classes
      | Eq => classes
      | Gt => c :: insert_label s rest
      end
  end.

Definition classes_ (y : list string) : list string := foldr insert_label [] y.

Definition transform (classes : list string) (label : string) : option nat :=
  fst <$> list_find (fun c => c = label) classes.

Definition fit_transform (y : list string) : list (option nat) :=
  map (transform (classes_ y)) y.

Definition inverse_transform (classes : list string) (code : Z) : option string :=
  if (code <? 0)%Z then None else classes !! Z.to_nat code.

End TrainModel.

(** ** data_collector.py: [WeatherDataCollector.__init__] and
    [collect_and_save] *)

Module Collect.
Import DataCollector.

(** [__init__]: [Config.OPENWEATHER_API_KEY] is the environment variable, if
    set; [None] and the empty string are refused. *)
Definition init (api_key : option string) : outcome string :=
  match api_key with
  | Some (String c key) => Return (String c key)
  | _ => Raise (Exn ValueError "OPENWEATHER_API_KEY not found in .env file!")
  end.

(** The loop of [collect_and_save]: the readings of the cities that could be
    fetched, in the order of the cities. *)
Fixpoint fetch_all (w : world) (cities : list string) : io (list reading) :=
  fun log =>
    match cities with
    | [] => ([], log)
    | city :: cities =>
        let '(data, log) := fetch_weather_data w city log in
        let '(all_data, log) := fetch_all w cities log in
        (match data with
         | Some data => data :: all_data
         | None => all_data
         end, log)
    end.

Section Frame.
(** pandas: the line that [pd.DataFrame] and [to_csv] make of a reading, as
    [read_csv] yields it. *)
Variable as_row : reading -> App.row.

(** [collect_and_save]: the returned frame (or [None], or the exception of
    [read_csv]), with what is at [Config.DATASET_FILE] afterwards. *)
Definition collect_and_save (w : world) (cities : option (list string))
    (file : App.dataset_file)
    : io (outcome (option (list App.row)) * App.dataset_file) :=
  fun log =>
    let cities := default Config.CITIES cities in
    let '(all_data, log) := fetch_all w cities log in
    match all_data with
    | [] => ((Return None, file), log)
    | _ :: _ =>
        let df := map as_row all_data in
        match file with
        | App.NoFile => ((Return (Some df), App.Csv df), log)
        | App.Csv existing_df =>
            let df := existing_df ++ df in
            ((Return (Some df), App.Csv df), log)
        | App.Unreadable e => ((Raise e, file), log)
        end
    end.
End Frame.

End Collect.

(** ** auto_data_collector.py *)

Module AutoCollect.
Import DataCollector.

(** What a run does besides sending requests, in order. *)
Inductive event : Type :=
| Completed (i : nat) (records : nat)
| Nothing (i : nat)
| Failed (i : nat) (e : exn)
| Sleep (seconds : Q).

(** The state of a run: the dataset file, the requests sent, the events. *)
Record run : Type := Run {
  file : App.dataset_file;
  requests : list request;
  events : list event
}.

Section Loop.
Variable as_row : reading -> App.row.
(** The service as it answers during collection [i]. *)
Variable worlds : nat -> world.
(** [time.sleep] of the platform, as a function of the length: it returns
    after the wait or raises ([ValueError] for a negative length,
    [OverflowError] for a length that does not fit the C time type,
    [OSError] for a length the operating system refuses).  Which lengths are
    accepted is the platform's matter and is taken not to change during a
    run. *)
Variable time_sleep : Q -> outcome unit.
(** The time shown as "Next collection at":
    [datetime.fromtimestamp(time.time() + interval_seconds).strftime(...)],
    which raises when the date is out of the range of [datetime]; the text
    itself is only printed. *)
Variable next_collection_at : Q -> outcome unit.
Variable interval_hours : Q.
Variable total_collections : nat.

Definition interval_seconds : Q := (interval_hours * 3600)%Q.

(** [time.sleep(seconds)], noted in the events when it returns. *)
Definition sleep (seconds : Q) : outcome (list event) :=
  (let* waited := time_sleep seconds in Return [Sleep seconds])%out.

(** The end of the [try] block: [if i < total_collections - 1:] print the
    time of the next collection, then sleep. *)
Definition wait_for_next (i : nat) : outcome (list event) :=
  if (Z.of_nat i <? Z.of_nat total_collections - 1)%Z
  then (let* shown := next_collection_at interval_seconds in sleep interval_seconds)%out
  else Return [].

(** The handler: [if i < total_collections - 1: time.sleep(interval_seconds)] *)
Definition sleep_unless_last (i : nat) : outcome (list event) :=
  if (Z.of_nat i <? Z.of_nat total_collections - 1)%Z then sleep interval_seconds
  else Return [].

(** One pass of the loop body, for a run in which Ctrl+C is not pressed: the
    [try] block, then the [except Exception] handler if it raised.  An
    exception of the handler itself ends the run. *)
Definition collection (i : nat) (s : run) : outcome run :=
  let '((df, file), requests) :=
    Collect.collect_and_save as_row (worlds i) None (file s) (requests s) in
  let report :=
    match df with
    | Return (Some df) => [Completed i (length df)]
    | Return None => [Nothing i]
    | Raise _ => []
    end in
  let tried :=
    match df with
    | Return _ => wait_for_next i
    | Raise e => Raise e
    end in
  match tried with
  | Return slept => Return (Run file requests (events s ++ report ++ slept))
  | Raise e =>
      (let* slept := sleep_unless_last i in
       Return (Run file requests (events s ++ report ++ Failed i e :: slept)))%out
  end.

(** [for i in range(total_collections)], from [i] on, [n] passes left. *)
Fixpoint collections (n i : nat) (s : run) : outcome run :=
  match n with
  | O => Return s
  | S n => (let* s := collection i s in collections n (S i) s)%out
  end.

Definition auto_collect_data (api_key : option string) (file : App.dataset_file)
    : outcome run :=
  (let* key := Collect.init api_key in
   collections total_collections 0 (Run file [] []))%out.
End Loop.

End AutoCollect.

(** ** app.py: [get_weather] and [chat] *)

Module Chat.
Import DataCollector.

(** [get_weather]: the JSON answer carries the reading or an error text. *)
Inductive weather_body : Type :=
| Reading (data : reading)
| NotFound (error : string).

Record weather_response : Type := WeatherResponse {
  w_status : nat; w_success : bool; w_payload : weather_body
}.

Definition get_weather (w : world) (city : string) : io weather_response :=
  fun log =>
    let '(data, log) := fetch_weather_data w city log in
    match data with
    | None => (WeatherResponse 404 false (NotFound "City not found"), log)
    | Some data => (WeatherResponse 200 true (Reading data), log)
    end.

(** [k in message] *)
Fixpoint contains (k message : string) : bool :=
  String.prefix k message
  || match message with
     | EmptyString => false
     | String _ rest => contains k rest
     end.

Definition weather_words : list string := ["weather"; "temperature"; "forecast"].
Definition air_words : list string := ["aqi"; "air"; "pollution"].

(** [any(k in message for k in words)] *)
Definition mentions (words : list string) (message : string) : bool :=
  existsb (fun k => contains k message) words.

(** The reply text, by the f-string that makes it and the values that fill
    it. *)
Inductive reply : Type :=
| WeatherReply (city : string) (current : Predict.current_block) (advice : string)
| AirReply (city : string) (current : Predict.current_block) (advice : string)
| HelpReply
| NoDataReply
| ErrorReply (text : string).

(** The JSON answer of [chat]; [c_data] is the ["data"] key, if set. *)
Record chat_response : Type := ChatResponse {
  c_status : nat; c_success : bool; c_reply : reply;
  c_data : option Predict.prediction
}.

(** The posted JSON object: its ["message"] and ["city"] keys, if set. *)
Record payload : Type := Payload {
  message : option string;
  city : option string
}.

Section Lower.
(** Python's [str.lower] *)
Variable lower : string -> string.

Definition chat (predictor : Predict.predictor) (g : App.globals) (w : world)
    (now : datetime) (payload : payload) : io chat_response :=
  fun log =>
    let message := lower (default "" (message payload)) in
    let city := default Config.DEFAULT_CITY (city payload) in
    let '(live, log) := Predict.predict_for_city predictor w now city log in
    let predictions : outcome (option Predict.prediction) :=
      match live with
      | Return (Predict.Predictions predictions) => Return (Some predictions)
      | _ =>
          (let* predictions := App.get_sample_city_data g city in
           match predictions with
           | None => Return None
           | Some predictions =>
               let* advice :=
                 Predict.get_health_advice
                   (Predict.cur_aqi (Predict.p_current predictions))
                   (Predict.cur_pm2_5 (Predict.p_current predictions)) in
               Return (Some {|
                 Predict.p_city := Predict.p_city predictions;
                 Predict.p_timestamp := Predict.p_timestamp predictions;
                 Predict.p_current := Predict.p_current predictions;
                 Predict.p_ml_predictions := Predict.p_ml_predictions predictions;
                 Predict.p_health_advice := Some advice |})
           end)%out
      end in
    (match predictions with
     | Raise e => ChatResponse 500 false (ErrorReply (exn_msg e)) None
     | Return None => ChatResponse 200 false NoDataReply None
     | Return (Some predictions) =>
         let current := Predict.p_current predictions in
         let advice := default "" (Predict.p_health_advice predictions) in
         if mentions weather_words message then
           ChatResponse 200 true (WeatherReply city current advice) (Some predictions)
         else if mentions air_words message then
           ChatResponse 200 true (AirReply city current advice) (Some predictions)
         else ChatResponse 200 true HelpReply None
     end, log).
End Lower.

End Chat.

(** ** train_model.py: [load_data] and the feature lists of the trainers *)

Module LoadData.

(** [Series.mean()]: the mean of the cells that are filled, NaN ([None]) when
    there is none.  The mean is the exact quotient; pandas computes it in
    float64, so what it returns is this number up to rounding. *)
Definition column_mean (col : list (option Q)) : option Q :=
  match omap id col with
  | [] => None
  | q :: present =>
      Some (TrainModel.Qsum (q :: present)
            / inject_Z (Z.of_nat (length (q :: present))))%Q
  end.

(** [fillna] on one cell, with the value for its column; a NaN value fills
    nothing. *)
Definition fillna (value : option Q) (c : option Q) : option Q :=
  match c with
  | Some q => Some q
  | None => value
  end.

(** [df.fillna(df.mean(numeric_only=True))]: every numeric column is filled
    with its own mean, taken over the whole frame; text columns are left. *)
Definition fill_means (df : list App.row) : list App.row :=
  let mean (column : App.row -> option Q) := column_mean (map column df) in
  let temperature := mean App.col_temperature in
  let feels_like := mean App.col_feels_like in
  let temp_min := mean App.col_temp_min in
  let temp_max := mean App.col_temp_max in
  let pressure := mean App.col_pressure in
  let humidity := mean App.col_humidity in
  let wind_speed := mean App.col_wind_speed in
  let wind_deg := mean App.col_wind_deg in
  let clouds := mean App.col_clouds in
  let aqi := mean App.col_aqi in
  let pm2_5 := mean App.col_pm2_5 in
  let pm10 := mean App.col_pm10 in
  let co := mean App.col_co in
  let no2 := mean App.col_no2 in
  let o3 := mean App.col_o3 in
  let so2 := mean App.col_so2 in
  map (fun r =>
         App.Row (App.col_timestamp r) (App.col_city r)
           (fillna temperature (App.col_temperature r))
           (fillna feels_like (App.col_feels_like r))
           (fillna temp_min (App.col_temp_min r))
           (fillna temp_max (App.col_temp_max r))
           (fillna pressure (App.col_pressure r))
           (fillna humidity (App.col_humidity r))
           (fillna wind_speed (App.col_wind_speed r))
           (fillna wind_deg (App.col_wind_deg r))
           (fillna clouds (App.col_clouds r))
           (App.col_weather_main r) (App.col_weather_description r)
           (fillna aqi (App.col_aqi r))
           (fillna pm2_5 (App.col_pm2_5 r))
           (fillna pm10 (App.col_pm10 r))
           (fillna co (App.col_co r))
           (fillna no2 (App.col_no2 r))
           (fillna o3 (App.col_o3 r))
           (fillna so2 (App.col_so2 r)))
      df.

(** A line of the frame that [load_data] returns: the filled cells, the
    parsed timestamp and the three derived columns. *)
Record line : Type := Line {
  cells : App.row;
  stamp : datetime;
  hour : Z;
  day_of_year : Z;
  month : Z
}.

Section Pandas.
(** [pd.to_datetime] on one cell, and [.dt.dayofyear]. *)
Variable to_datetime : string -> outcome datetime.
Variable dayofyear : datetime -> Z.

Fixpoint derive (df : list App.row) : outcome (list line) :=
  match df with
  | [] => Return []
  | r :: df =>
      (let* t := to_datetime (App.col_timestamp r) in
       let* lines := derive df in
       Return (Line r t (dt_hour t) (dayofyear t) (dt_month t) :: lines))%out
  end.

(** [load_data]: [None] when the file is not there. *)
Definition load_data (file : App.dataset_file) : outcome (option (list line)) :=
  match file with
  | App.NoFile => Return None
  | App.Unreadable e => Raise e
  | App.Csv df =>
      (let* lines := derive (fill_means df) in Return (Some lines))%out
  end.
End Pandas.

(** The numeric columns of the frame by name: [df[name]] on one line. *)
Definition columns : gmap string (line -> option Q) :=
  list_to_map
    [ ("temperature", fun l => App.col_temperature (cells l));
      ("feels_like", fun l => App.col_feels_like (cells l));
      ("temp_min", fun l => App.col_temp_min (cells l));
      ("temp_max", fun l => App.col_temp_max (cells l));
      ("pressure", fun l => App.col_pressure (cells l));
      ("humidity", fun l => App.col_humidity (cells l));
      ("wind_speed", fun l => App.col_wind_speed (cells l));
      ("wind_deg", fun l => App.col_wind_deg (cells l));
      ("clouds", fun l => App.col_clouds (cells l));
      ("aqi", fun l => App.col_aqi (cells l));
      ("pm2_5", fun l => App.col_pm2_5 (cells l));
      ("pm10", fun l => App.col_pm10 (cells l));
      ("co", fun l => App.col_co (cells l));
      ("no2", fun l => App.col_no2 (cells l));
      ("o3", fun l => App.col_o3 (cells l));
      ("so2", fun l => App.col_so2 (cells l));
      ("hour", fun l => Some (inject_Z (hour l)));
      ("day_of_year", fun l => Some (inject_Z (day_of_year l)));
      ("month", fun l => Some (inject_Z (month l))) ].

(** One row of [df[features].values], for a list of names of numeric
    columns; [None] for a list that names anything else. *)
Fixpoint values (features : list string) (l : line) : option (list (option Q)) :=
  match features with
  | [] => Some []
  | name :: features =>
      column ← columns !! name;
      rest ← values features l;
      Some (column l :: rest)
  end.

(** The [features] lists of [train_temperature_model],
    [train_weather_classifier] and [train_humidity_model]. *)
Definition temperature_features : list string :=
  ["feels_like"; "temp_min"; "temp_max"; "pressure"; "humidity"; "wind_speed";
   "clouds"; "pm2_5"; "pm10"; "hour"; "month"].

Definition weather_features : list string :=
  ["temperature"; "humidity"; "pressure"; "wind_speed"; "clouds"; "pm2_5"; "aqi";
   "hour"; "month"].

Definition humidity_features : list string :=
  ["temperature"; "pressure"; "wind_speed"; "clouds"; "pm2_5"; "hour"; "month"].

End LoadData.

(** * Statements *)

(** The fixed AQI table, as a property of a category function. *)
Definition aqi_table (f : option Z -> string) : Prop :=
  f (Some 1%Z) = "Good" /\ f (Some 2%Z) = "Fair" /\ f (Some 3%Z) = "Moderate" /\
  f (Some 4%Z) = "Poor" /\ f (Some 5%Z) = "Very Poor" /\
  forall z : Z, (z < 1 \/ 5 < z)%Z -> f (Some z) = "Unknown".

(** [pm2_5] is present and greater than 55. *)
Definition above_55 (pm25 : pyval) : Prop :=
  exists q, pm25 = PyNum q /\ (55 < q)%Q.

(** [above_55] as the boolean that [pm25 and pm25 > 55] computes. *)
Definition above_55b (pm25 : pyval) : bool :=
  match pm25 with
  | PyNum q => Qltb 55 q
  | _ => false
  end.

(** Two entries of a feature vector that are the same number (or both
    [None], or both NaN). *)
Definition same_number (a b : pyval) : Prop :=
  match a, b with
  | PyNone, PyNone => True
  | PyNaN, PyNaN => True
  | PyNum x, PyNum y => (x == y)%Q
  | _, _ => False
  end.

(** The specification's "field-or-0": an absent field counts as zero. *)
Definition absent_as_zero (v : pyval) : pyval :=
  match v with
  | PyNone => PyNum 0
  | _ => v
  end.

(** [self'] is [self] with some artifacts missing. *)
Definition drops_artifacts (self' self : Predict.predictor) : Prop :=
  (Predict.temp_model self' = None \/ Predict.temp_model self' = Predict.temp_model self) /\
  (Predict.weather_clf self' = None \/ Predict.weather_clf self' = Predict.weather_clf self) /\
  (Predict.humidity_model self' = None
   \/ Predict.humidity_model self' = Predict.humidity_model self) /\
  (Predict.scaler self' = None \/ Predict.scaler self' = Predict.scaler self).

(** [self] with no weather classifier loaded. *)
Definition without_classifier (self : Predict.predictor) : Predict.predictor :=
  Predict.Predictor (Predict.temp_model self) None (Predict.humidity_model self)
    (Predict.scaler self).

(** The prediction [p], whose ML block is [ml], with the key
    ["predicted_weather"] of the block set to [cls]. *)
Definition with_predicted_weather (cls : string) (p : Predict.prediction)
    (ml : Predict.ml_block) : Predict.prediction :=
  Predict.Prediction (Predict.p_city p) (Predict.p_timestamp p) (Predict.p_current p)
    (Some (Predict.Ml (Predict.predicted_temperature ml) (Predict.temp_difference ml)
             (Predict.predicted_humidity ml) (Some cls)))
    (Predict.p_health_advice p).

(** ** Sample inputs *)

Definition noon : datetime := Datetime 2024 3 9 12 0 0.

(** Artifacts that ignore their input. *)
Definition constant_regressor (q : Q) : Predict.regressor := fun _ => Return q.
Definition constant_classifier (code : Z) : Predict.classifier := fun _ => Return code.
Definition identity_scaler : Predict.scaler_t := fun x => Return x.

Definition all_models (code : Z) : Predict.predictor :=
  Predict.Predictor (Some (constant_regressor (2471 # 100))) (Some (constant_classifier code))
    (Some (constant_regressor (6049 # 100))) (Some identity_scaler).

Definition no_models : Predict.predictor := Predict.Predictor None None None None.

(** A reading of Delhi with every field present. *)
Definition delhi_reading : DataCollector.reading :=
  DataCollector.Reading noon "Delhi" (PyNum 25) (PyNum 26) (PyNum 24) (PyNum 27)
    (PyNum 1012) (PyNum 40) (PyNum 3) (PyNum 180) (PyNum 20)
    (Some "Clear") (Some "clear sky") (Some 2%Z)
    (PyNum 30) (PyNum 45) (PyNum 300) (PyNum 20) (PyNum 60) (PyNum 10).

(** The same reading when the service reports no temperature. *)
Definition reading_without_temperature : DataCollector.reading :=
  DataCollector.Reading noon "Delhi" PyNone (PyNum 26) (PyNum 24) (PyNum 27)
    (PyNum 1012) (PyNum 40) (PyNum 3) (PyNum 180) (PyNum 20)
    (Some "Clear") (Some "clear sky") (Some 2%Z)
    (PyNum 30) (PyNum 45) (PyNum 300) (PyNum 20) (PyNum 60) (PyNum 10).

(** A [models/] directory in which only the humidity regressor is missing. *)
Definition dir_without_humidity : Predict.model_dir :=
  Predict.ModelDir (Some (constant_regressor (2471 # 100))) (Some (constant_classifier 0))
    None (Some identity_scaler).

(** The service as it answers for Delhi. *)
Definition delhi_weather_json : DataCollector.weather_json :=
  DataCollector.WeatherJson
    (Some (DataCollector.MainBlock (Some 25%Q) (Some 26%Q) (Some 24%Q) (Some 27%Q)
             (Some 1012%Q) (Some 40%Q)))
    (Some (DataCollector.WindBlock (Some 3%Q) (Some 180%Q)))
    (Some (DataCollector.CloudsBlock (Some 20%Q)))
    (Some [DataCollector.WeatherEntry (Some "Clear") (Some "clear sky")]).

Definition delhi_air_json : DataCollector.air_json :=
  DataCollector.AirJson
    (Some [DataCollector.AirEntry (Some (DataCollector.AqiBlock (Some 2%Z)))
             (Some (DataCollector.ComponentsBlock (Some 30%Q) (Some 45%Q) (Some 300%Q)
                      (Some 20%Q) (Some 60%Q) (Some 10%Q)))]).

Definition online : DataCollector.world :=
  DataCollector.World (fun _ => Some [DataCollector.GeoEntry (286 # 10) (772 # 10)])
    (fun _ _ => Some delhi_weather_json) (fun _ _ => Some delhi_air_json) noon.

(** No endpoint answers. *)
Definition offline : DataCollector.world :=
  DataCollector.World (fun _ => None) (fun _ _ => None) (fun _ _ => None) noon.

(** The geocoder places the city on the equator. *)
Definition on_equator : DataCollector.world :=
  DataCollector.World (fun _ => Some [DataCollector.GeoEntry 0 (91 # 10)])
    (fun _ _ => Some delhi_weather_json) (fun _ _ => Some delhi_air_json) noon.

(** [weather_conditions] of [generate_sample_data.py], the labels of the
    generated training set. *)
Definition weather_conditions : list string :=
  ["Clear"; "Clouds"; "Rain"; "Drizzle"; "Mist"; "Haze"].

(** What [online] and [all_models] give for Delhi. *)
Definition delhi_requests : list DataCollector.request :=
  [ DataCollector.GeoRequest "Delhi";
    DataCollector.WeatherRequest (PyNum (286 # 10)) (PyNum (772 # 10));
    DataCollector.AirPollutionRequest (PyNum (286 # 10)) (PyNum (772 # 10)) ].

Definition delhi_ml (weather : option string) : Predict.ml_block :=
  Predict.Ml (2471 # 100) (PyNum (-29 # 100)) (Some (6049 # 100)%Q) weather.

Definition delhi_prediction (ml : option Predict.ml_block) : Predict.prediction :=
  Predict.Prediction "Delhi" "2024-03-09 12:00:00"
    (Predict.Current (PyNum 25) (PyNum 26) (PyNum 40) (PyNum 1012) (PyNum 3) (PyNum 20)
       (Some "Clear") (Some "clear sky") (Some 2%Z) "Fair" (PyNum 30) (PyNum 45))
    ml (Some Predict.advice_good).

(** The cell holds a number and [z] is what [int] makes of it. *)
Definition whole (c : option Q) (z : Z) : Prop :=
  exists q, c = Some q /\ z = Z.quot (Qnum q) (Zpos (Qden q)).

(** The record served from row [r] of the dataset under the name [city]. *)
Definition shown (city : string) (r : App.row) (humidity pressure clouds aqi : Z)
    (advice : option string) : Predict.prediction :=
  {| Predict.p_city := city;
     Predict.p_timestamp := App.col_timestamp r;
     Predict.p_current :=
       {| Predict.cur_temperature := App.cell (App.col_temperature r);
          Predict.cur_feels_like := App.cell (App.col_feels_like r);
          Predict.cur_humidity := of_int humidity;
          Predict.cur_pressure := of_int pressure;
          Predict.cur_wind_speed := App.cell (App.col_wind_speed r);
          Predict.cur_clouds := of_int clouds;
          Predict.cur_weather := Some (App.str_cell (App.col_weather_main r));
          Predict.cur_description := Some (App.str_cell (App.col_weather_description r));
          Predict.cur_aqi := Some aqi;
          Predict.cur_aqi_category := App.get_aqi_category (Some aqi);
          Predict.cur_pm2_5 := App.cell (App.col_pm2_5 r);
          Predict.cur_pm10 := App.cell (App.col_pm10 r) |};
     Predict.p_ml_predictions := None;
     Predict.p_health_advice := advice |}.

(** Rows of a small dataset: two cities, two rows each, oldest first. *)
Definition a_row (timestamp city : string) (temperature : Q) (humidity : option Q)
    (aqi pm2_5 : Q) : App.row :=
  App.Row timestamp city (Some temperature) (Some (temperature + 1)%Q)
    (Some (temperature - 2)%Q) (Some (temperature + 2)%Q) (Some 1010%Q) humidity
    (Some (35 # 10)) (Some 90%Q) (Some 20%Q) (Some "Clouds") (Some "few clouds")
    (Some aqi) (Some pm2_5) (Some (pm2_5 * 2)%Q) (Some 300%Q) (Some 20%Q) (Some 60%Q)
    (Some 10%Q).

Definition x_old : App.row := a_row "2024-03-08 10:00:00" "X" 21 (Some 55%Q) 2 20.
Definition y_old : App.row := a_row "2024-03-08 11:00:00" "Y" 30 (Some 70%Q) 4 80.
Definition x_new : App.row := a_row "2024-03-08 12:00:00" "X" 23 (Some (405 # 10)) 3 40.
Definition y_new : App.row := a_row "2024-03-08 13:00:00" "Y" 31 (Some 65%Q) 2 60.
Definition xy_rows : list App.row := [x_old; y_old; x_new; y_new].

(** The latest row of X was written with no humidity. *)
Definition x_gap : App.row := a_row "2024-03-08 14:00:00" "X" 24 None 3 40.
Definition rows_with_gap : list App.row := [x_old; y_old; x_gap].

(** The latest row of X was written with no wind speed. *)
Definition x_calm : App.row :=
  App.Row "2024-03-08 14:00:00" "X" (Some 24%Q) (Some 25%Q) (Some 22%Q) (Some 26%Q)
    (Some 1010%Q) (Some 60%Q) None (Some 90%Q) (Some 20%Q) (Some "Clouds")
    (Some "few clouds") (Some 3%Q) (Some 40%Q) (Some 80%Q) (Some 300%Q) (Some 20%Q)
    (Some 60%Q) (Some 10%Q).

(** A toy instance of the learners: the split keeps the last row for
    testing, the scaler does nothing, a fitted model predicts one constant. *)
Definition a_sample (temperature : Q) : TrainModel.sample :=
  TrainModel.Sample temperature (temperature + 1)%Q (temperature - 2)%Q
    (temperature + 2)%Q 1010 50 3 20 40 80 12 3.

Definition five_samples : list TrainModel.sample :=
  [a_sample 20; a_sample 22; a_sample 26; a_sample 28; a_sample 24].

Definition last_row_split (X : list (list Q)) (y : list Q) (test_size : Q)
    (random_state : Z) : list (list Q) * list (list Q) * list Q * list Q :=
  (take 4 X, drop 4 X, take 4 y, drop 4 y).

Definition constant_learner (q : Q) (n_estimators max_depth random_state : Z)
    (X : list (list Q)) (y : list Q) : Q := q.

Definition constant_predict (model : Q) (X : list (list Q)) : list Q :=
  map (fun _ => model) X.

Definition toy_train (rf gb : Q) : outcome (TrainModel.saved Q unit) :=
  TrainModel.train_temperature_model Q unit last_row_split (fun _ => tt) (fun _ X => X)
    (constant_learner rf) (constant_learner gb) constant_predict five_samples.

(** ** Statements and sample inputs for the rest of the code *)

(** Nothing is in the main block of the weather answer. *)
Definition no_main_fields (d : DataCollector.reading) : Prop :=
  DataCollector.temperature d = PyNone /\ DataCollector.feels_like d = PyNone /\
  DataCollector.temp_min d = PyNone /\ DataCollector.temp_max d = PyNone /\
  DataCollector.pressure d = PyNone /\ DataCollector.humidity d = PyNone.

(** A line for a reading, as a CSV file would hold it. *)
Definition csv_cell (v : pyval) : option Q :=
  match v with
  | PyNum q => Some q
  | _ => None
  end.

Definition csv_line (d : DataCollector.reading) : App.row :=
  App.Row (Predict.str_datetime (DataCollector.timestamp d)) (DataCollector.city d)
    (csv_cell (DataCollector.temperature d)) (csv_cell (DataCollector.feels_like d))
    (csv_cell (DataCollector.temp_min d)) (csv_cell (DataCollector.temp_max d))
    (csv_cell (DataCollector.pressure d)) (csv_cell (DataCollector.humidity d))
    (csv_cell (DataCollector.wind_speed d)) (csv_cell (DataCollector.wind_deg d))
    (csv_cell (DataCollector.clouds d))
    (DataCollector.weather_main d) (DataCollector.weather_description d)
    (inject_Z <$> DataCollector.aqi d)
    (csv_cell (DataCollector.pm2_5 d)) (csv_cell (DataCollector.pm10 d))
    (csv_cell (DataCollector.co d)) (csv_cell (DataCollector.no2 d))
    (csv_cell (DataCollector.o3 d)) (csv_cell (DataCollector.so2 d)).

(** Only Delhi is known to the geocoder. *)
Definition delhi_only : DataCollector.world :=
  DataCollector.World
    (fun city_name => if decide (city_name = "Delhi")
                      then Some [DataCollector.GeoEntry (286 # 10) (772 # 10)]
                      else Some [])
    (fun _ _ => Some delhi_weather_json) (fun _ _ => Some delhi_air_json) noon.

(** The air-pollution answer has an empty list. *)
Definition empty_air_list : DataCollector.world :=
  DataCollector.World (fun _ => Some [DataCollector.GeoEntry (286 # 10) (772 # 10)])
    (fun _ _ => Some delhi_weather_json) (fun _ _ => Some (DataCollector.AirJson (Some [])))
    noon.

(** The air-pollution answer has no list at all. *)
Definition no_air_list : DataCollector.world :=
  DataCollector.World (fun _ => Some [DataCollector.GeoEntry (286 # 10) (772 # 10)])
    (fun _ _ => Some delhi_weather_json) (fun _ _ => Some (DataCollector.AirJson None))
    noon.

(** The dataset file can be read or is not there. *)
Definition readable (file : App.dataset_file) : Prop :=
  match file with
  | App.Unreadable _ => False
  | _ => True
  end.

(** The ["current"] block that shows reading [d]. *)
Definition current_of (d : DataCollector.reading) : Predict.current_block :=
  Predict.Current (DataCollector.temperature d) (DataCollector.feels_like d)
    (DataCollector.humidity d) (DataCollector.pressure d) (DataCollector.wind_speed d)
    (DataCollector.clouds d) (DataCollector.weather_main d)
    (DataCollector.weather_description d) (DataCollector.aqi d)
    (Predict.get_aqi_category (DataCollector.aqi d))
    (DataCollector.pm2_5 d) (DataCollector.pm10 d).

(** The answer of [chat] to a message, from the answer that [predict] gives
    for the same city. *)
Definition chat_of_predict (lowered : string) (city : string) (r : App.response)
    : Chat.chat_response :=
  match App.payload r with
  | App.Data p =>
      let advice := default "" (Predict.p_health_advice p) in
      if Chat.mentions Chat.weather_words lowered then
        Chat.ChatResponse 200 true (Chat.WeatherReply city (Predict.p_current p) advice)
          (Some p)
      else if Chat.mentions Chat.air_words lowered then
        Chat.ChatResponse 200 true (Chat.AirReply city (Predict.p_current p) advice)
          (Some p)
      else Chat.ChatResponse 200 true Chat.HelpReply None
  | App.Error text =>
      if (App.status r =? 404)%nat then Chat.ChatResponse 200 false Chat.NoDataReply None
      else Chat.ChatResponse 500 false (Chat.ErrorReply text) None
  end.

(** [word] occurs in [message]. *)
Definition occurs (word message : string) : Prop :=
  exists before after, message = before +:+ word +:+ after.

(** An "upper-casing" that stands for [str.lower] in the examples: it maps
    the capitals A to Z to small letters and leaves other bytes. *)
Definition ascii_lower (c : Ascii.ascii) : Ascii.ascii :=
  let n := Ascii.nat_of_ascii c in
  if ((65 <=? n) && (n <=? 90))%nat then Ascii.ascii_of_nat (n + 32) else c.

Fixpoint lower_ascii (s : string) : string :=
  match s with
  | EmptyString => EmptyString
  | String c s => String (ascii_lower c) (lower_ascii s)
  end.

(** How bad an advice text says the air is. *)
Definition advice_rank (advice : string) : nat :=
  if decide (advice = Predict.advice_poor) then 2
  else if decide (advice = Predict.advice_moderate) then 1
  else 0.

(** The candidates of the selection loop, scored: fitting a candidate on
    the training part and predicting the test part gives its error. *)
Definition scored {fitted : Type} (model_predict : fitted -> list (list Q) -> list Q)
    (X_train X_test : list (list Q)) (y_train y_test : list Q)
    (todo : list (string * (list (list Q) -> list Q -> fitted))) (scores : list Q) : Prop :=
  Forall2 (fun candidate mae =>
             TrainModel.mean_absolute_error y_test
               (model_predict (snd candidate X_train y_train) X_test) = Return mae)
    todo scores.

(** Candidate [i] of the loop is kept as [model] with score [mae]: no score
    is lower, and every earlier score is strictly higher. *)
Definition first_best {fitted : Type} (X_train : list (list Q)) (y_train : list Q)
    (todo : list (string * (list (list Q) -> list Q -> fitted)))
    (scores : list Q) (i : nat) (model : fitted) (mae : Q) : Prop :=
  (exists name learner,
     todo !! i = Some (name, learner) /\ model = learner X_train y_train) /\
  scores !! i = Some mae /\
  (forall j m, scores !! j = Some m -> (mae <= m)%Q) /\
  (forall j m, (j < i)%nat -> scores !! j = Some m -> (mae < m)%Q).

(** [a] comes before [b] in the order of [np.unique]. *)
Definition before (a b : string) : Prop := String.compare a b = Lt.

(** The fixed list of [predict.py] decodes every label of the training set
    [y] to itself. *)
Definition decodes_training_labels (y : list string) : Prop :=
  forall label code,
    label ∈ y ->
    TrainModel.transform (TrainModel.classes_ y) label = Some code ->
    Predict.weather_classes !! code = Some label.



(** The values that [predict_for_city] has at hand, under the names of the
    training columns: the keys of [live_data], and the hour and month of
    [now]. *)
Definition live_values (now : datetime) (d : DataCollector.reading) : gmap string pyval :=
  list_to_map
    [ ("temperature", DataCollector.temperature d);
      ("feels_like", DataCollector.feels_like d);
      ("temp_min", DataCollector.temp_min d);
      ("temp_max", DataCollector.temp_max d);
      ("pressure", DataCollector.pressure d);
      ("humidity", DataCollector.humidity d);
      ("wind_speed", DataCollector.wind_speed d);
      ("wind_deg", DataCollector.wind_deg d);
      ("clouds", DataCollector.clouds d);
      ("aqi", Predict.aqi_value (DataCollector.aqi d));
      ("pm2_5", DataCollector.pm2_5 d);
      ("pm10", DataCollector.pm10 d);
      ("co", DataCollector.co d);
      ("no2", DataCollector.no2 d);
      ("o3", DataCollector.o3 d);
      ("so2", DataCollector.so2 d);
      ("hour", of_int (dt_hour now));
      ("month", of_int (dt_month now)) ].

(** Entry [v] of a feature vector is the live value named [name], with
    [or 0] on the two particulate columns. *)
Definition feeds (now : datetime) (d : DataCollector.reading) (v : pyval) (name : string)
    : Prop :=
  exists x, live_values now d !! name = Some x /\
            v = if decide (name = "pm2_5" \/ name = "pm10") then or_zero x else x.

(** The line of the training frame as [train_temperature_model] reads it,
    when no cell it needs is empty. *)
Definition sample_of_line (l : LoadData.line) : option TrainModel.sample :=
  let r := LoadData.cells l in
  temperature ← App.col_temperature r;
  feels_like ← App.col_feels_like r;
  temp_min ← App.col_temp_min r;
  temp_max ← App.col_temp_max r;
  pressure ← App.col_pressure r;
  humidity ← App.col_humidity r;
  wind_speed ← App.col_wind_speed r;
  clouds ← App.col_clouds r;
  pm2_5 ← App.col_pm2_5 r;
  pm10 ← App.col_pm10 r;
  Some (TrainModel.Sample temperature feels_like temp_min temp_max pressure humidity
          wind_speed clouds pm2_5 pm10 (inject_Z (LoadData.hour l))
          (inject_Z (LoadData.month l))).

(** [e] is what pass [i] of the collection loop reports. *)
Definition reports_pass (i : nat) (e : AutoCollect.event) : Prop :=
  match e with
  | AutoCollect.Completed j _ => j = i
  | AutoCollect.Nothing j => j = i
  | AutoCollect.Failed j _ => j = i
  | AutoCollect.Sleep _ => False
  end.

(** [l] with [sep] between each two neighbours. *)
Fixpoint between {A} (sep : A) (l : list A) : list A :=
  match l with
  | [] => []
  | [x] => [x]
  | x :: l => x :: sep :: between sep l
  end.

(** The dataset file has only grown: the lines it had are still in front. *)
Definition grown (before after : App.dataset_file) : Prop :=
  match before with
  | App.Unreadable e => after = App.Unreadable e
  | App.NoFile => after = App.NoFile \/ exists added, after = App.Csv added
  | App.Csv existing => exists added, after = App.Csv (existing ++ added)
  end.

(** The service as it answers in pass [i]: up for even [i], down for odd. *)
Definition every_other (i : nat) : DataCollector.world :=
  if Nat.even i then online else offline.

(** [f] accepts [x]: the call returns. *)
Definition accepts {A} (f : Q -> outcome A) (x : Q) : Prop :=
  exists a, f x = Return a.

(** A [time.sleep] that refuses a negative length, as CPython's does, and
    waits for every other. *)
Definition sleep_nonnegative (seconds : Q) : outcome unit :=
  if Qltb seconds 0 then Raise (Exn ValueError "sleep length must be non-negative")
  else Return tt.

(** A "Next collection at" line that can always be printed. *)
Definition always_shown (seconds : Q) : outcome unit := Return tt.

(** Four candidates for the selection loop, each predicting a constant. *)
Definition four_candidates : list (string * (list (list Q) -> list Q -> Q)) :=
  [ ("a", fun _ _ => 26%Q); ("b", fun _ _ => 25%Q); ("c", fun _ _ => 23%Q);
    ("d", fun _ _ => 25%Q) ].

(** A question that names both the weather and the air. *)
Definition both_words : Chat.payload :=
  Chat.Payload (Some "How is the WEATHER and the air in X?") (Some "X").

(** * Properties *)

(** ** Numbers *)

Lemma Qltb_lt (a b : Q) : Qltb a b = true <-> (a < b)%Q.
Proof. unfold Qltb, Qlt. apply Z.ltb_lt. Qed.

Lemma Qltb_ge (a b : Q) : Qltb a b = false <-> (b <= a)%Q.
Proof. unfold Qltb, Qle. rewrite Z.ltb_ge. reflexivity. Qed.

Lemma py_truthy_num (q : Q) : py_truthy (PyNum q) = false <-> (q == 0)%Q.
Proof.
  simpl. rewrite negb_false_iff. apply Qeq_bool_iff.
Qed.

(** ** The AQI category table *)

Lemma categories_lookup_outside (z : Z) :
  (z < 1 \/ 5 < z)%Z -> Predict.categories !! z = None.
Proof.
  intros Hz. unfold Predict.categories.
  repeat (rewrite lookup_insert_ne by lia).
  apply lookup_singleton_ne. lia.
Qed.

Lemma predict_aqi_table : aqi_table Predict.get_aqi_category.
Proof.
  repeat split; try reflexivity.
  intros z Hz. unfold Predict.get_aqi_category. simpl.
  rewrite (categories_lookup_outside z Hz). reflexivity.
Qed.

(** C5: both copies of [get_aqi_category] (in [predict.py] and in [app.py])
    send 1 to "Good", 2 to "Fair", 3 to "Moderate", 4 to "Poor", 5 to
    "Very Poor", and every other integer to "Unknown". *)
Theorem aqi_category_table :
  aqi_table Predict.get_aqi_category /\ aqi_table App.get_aqi_category.
Proof.
  split; [exact predict_aqi_table | ].
  change App.get_aqi_category with Predict.get_aqi_category.
  exact predict_aqi_table.
Qed.

(** ** Health advice *)

Lemma above_55_decide (pm25 : pyval) :
  (if py_truthy pm25 then py_gt pm25 55 else Return false)
  = Return (match pm25 with PyNum q => Qltb 55 q | _ => false end).
Proof.
  destruct pm25 as [ | | q]; try reflexivity.
  destruct (py_truthy (PyNum q)) eqn:Ht; [reflexivity | ].
  apply py_truthy_num in Ht. f_equal. symmetry. apply Qltb_ge.
  rewrite Ht. discriminate.
Qed.

Lemma above_55_true (pm25 : pyval) :
  match pm25 with PyNum q => Qltb 55 q | _ => false end = true <-> above_55 pm25.
Proof.
  split.
  - destruct pm25 as [ | | q]; try discriminate.
    intros H. exists q. split; [reflexivity | now apply Qltb_lt].
  - intros (q & -> & H). now apply Qltb_lt.
Qed.

Lemma health_advice_value (aqi : Z) (pm25 : pyval) :
  Predict.get_health_advice (Some aqi) pm25
  = Return (if (4 <=? aqi)%Z || above_55b pm25 then Predict.advice_poor
            else if (aqi =? 3)%Z then Predict.advice_moderate
            else Predict.advice_good).
Proof.
  unfold Predict.get_health_advice. cbn [obind].
  destruct (4 <=? aqi)%Z; [reflexivity | ].
  rewrite above_55_decide. cbn [obind orb]. fold (above_55b pm25).
  destruct (above_55b pm25); [reflexivity | ].
  destruct (aqi =? 3)%Z; reflexivity.
Qed.

(** C4: for an integer [aqi] and any [pm25] (a number, NaN or [None]),
    [get_health_advice] gives the poor-quality text when [aqi >= 4] or
    [pm25] is present and above 55, else the moderate text when [aqi] is 3,
    else the good text; no range check is made on [aqi], so every [aqi]
    below 3 with [pm25] absent or at most 55 gives the good text. *)
Theorem health_advice_boundaries (aqi : Z) (pm25 : pyval) :
  let advice := Predict.get_health_advice (Some aqi) pm25 in
  let poor := (4 <= aqi)%Z \/ above_55 pm25 in
  (poor -> advice = Return Predict.advice_poor) /\
  (~ poor -> aqi = 3%Z -> advice = Return Predict.advice_moderate) /\
  (~ poor -> aqi <> 3%Z -> advice = Return Predict.advice_good) /\
  ((aqi < 3)%Z -> ~ above_55 pm25 -> advice = Return Predict.advice_good).
Proof.
  intros advice poor. subst advice poor. rewrite health_advice_value.
  pose proof (above_55_true pm25) as Hpm. fold (above_55b pm25) in Hpm.
  destruct (Z.leb_spec 4 aqi) as [Hge | Hlt]; cbn [orb].
  - repeat split; intros; try reflexivity; try lia; exfalso; tauto.
  - destruct (above_55b pm25).
    + assert (above_55 pm25) by (now apply Hpm).
      repeat split; intros; try reflexivity; exfalso; tauto.
    + assert (Hno : ~ above_55 pm25) by (intros H; apply Hpm in H; discriminate H).
      repeat split.
      * intros [H | H]; [lia | contradiction].
      * intros _ ->. reflexivity.
      * intros _ Hne. apply Z.eqb_neq in Hne. rewrite Hne. reflexivity.
      * intros H3 _. assert (Hne : (aqi =? 3)%Z = false) by (apply Z.eqb_neq; lia).
        rewrite Hne. reflexivity.
Qed.

(** ** Feature vectors *)

Lemma same_number_refl (v : pyval) : same_number v v.
Proof. destruct v; simpl; [exact I | exact I | reflexivity]. Qed.

Lemma or_zero_absent_as_zero (v : pyval) : same_number (or_zero v) (absent_as_zero v).
Proof.
  destruct v as [ | | q]; try exact I; try reflexivity.
  unfold or_zero. destruct (py_truthy (PyNum q)) eqn:Ht.
  - apply same_number_refl.
  - apply py_truthy_num in Ht. simpl. symmetry. exact Ht.
Qed.

Create HintDb features.
#[local] Hint Resolve same_number_refl or_zero_absent_as_zero : features.

(** C6: the three feature vectors are functions of the reading and of the
    hour and month of the timestamp, with 11, 9 and 7 entries in the stated
    order; [pm2_5] and [pm10] enter as "field or 0". *)
Theorem feature_vectors (now : datetime) (d : DataCollector.reading) :
  let hour := of_int (dt_hour now) in
  let month := of_int (dt_month now) in
  let pm2_5_or_0 := absent_as_zero (DataCollector.pm2_5 d) in
  let pm10_or_0 := absent_as_zero (DataCollector.pm10 d) in
  (Forall2 same_number (Predict.features_temp now d)
     [ DataCollector.feels_like d; DataCollector.temp_min d; DataCollector.temp_max d;
       DataCollector.pressure d; DataCollector.humidity d; DataCollector.wind_speed d;
       DataCollector.clouds d; pm2_5_or_0; pm10_or_0; hour; month ]
   /\ length (Predict.features_temp now d) = 11%nat) /\
  (Forall2 same_number (Predict.features_weather now d)
     [ DataCollector.temperature d; DataCollector.humidity d; DataCollector.pressure d;
       DataCollector.wind_speed d; DataCollector.clouds d; pm2_5_or_0;
       Predict.aqi_value (DataCollector.aqi d); hour; month ]
   /\ length (Predict.features_weather now d) = 9%nat) /\
  (Forall2 same_number (Predict.features_humidity now d)
     [ DataCollector.temperature d; DataCollector.pressure d; DataCollector.wind_speed d;
       DataCollector.clouds d; pm2_5_or_0; hour; month ]
   /\ length (Predict.features_humidity now d) = 7%nat) /\
  (forall now' : datetime,
     dt_hour now' = dt_hour now -> dt_month now' = dt_month now ->
     Predict.features_temp now' d = Predict.features_temp now d /\
     Predict.features_weather now' d = Predict.features_weather now d /\
     Predict.features_humidity now' d = Predict.features_humidity now d).
Proof.
  intros hour month pm2_5_or_0 pm10_or_0.
  unfold Predict.features_temp, Predict.features_weather, Predict.features_humidity.
  split; [ | split; [ | split]].
  1-3: split; [repeat constructor; auto with features | reflexivity].
  intros now' Hhour Hmonth. rewrite Hhour, Hmonth. repeat split.
Qed.

(** ** Absent fields *)

(** With no temperature in the reading, the weather and humidity vectors
    carry [None], not zero, in their first place, and with the temperature
    model loaded the request ends in a [TypeError]. *)
Lemma absent_temperature_not_zeroed :
  DataCollector.temperature reading_without_temperature = PyNone /\
  Predict.features_weather noon reading_without_temperature !! 0%nat = Some PyNone /\
  Predict.features_humidity noon reading_without_temperature !! 0%nat = Some PyNone /\
  PyNone <> PyNum 0 /\
  exists msg,
    Predict.predict_from (all_models 0) noon "Delhi" reading_without_temperature
    = Raise (Exn TypeError msg).
Proof.
  repeat split; try discriminate.
  eexists. vm_compute. reflexivity.
Qed.

Lemma or_zero_present (v : pyval) : v <> PyNone -> same_number (or_zero v) v.
Proof.
  intros Hv. pose proof (or_zero_absent_as_zero v) as H.
  destruct v; [contradiction | exact H | exact H].
Qed.

(** C3, amended: zero is substituted for an absent [pm2_5] (in all three
    vectors) and an absent [pm10] (in the temperature vector) and for no other
    field: a [pm2_5] or [pm10] that is present goes into the vectors as the
    number it is, and the other fields go into the vectors as they are,
    absent or not.  The "current" block of a returned prediction shows every
    field as read, an absent [pm2_5] or [pm10] included. *)
Theorem zero_only_for_particulates (now : datetime) (d : DataCollector.reading) :
  (DataCollector.pm2_5 d = PyNone ->
     Predict.features_temp now d !! 7%nat = Some (PyNum 0) /\
     Predict.features_weather now d !! 5%nat = Some (PyNum 0) /\
     Predict.features_humidity now d !! 4%nat = Some (PyNum 0)) /\
  (DataCollector.pm10 d = PyNone -> Predict.features_temp now d !! 8%nat = Some (PyNum 0)) /\
  (DataCollector.pm2_5 d <> PyNone ->
     exists v, same_number v (DataCollector.pm2_5 d) /\
       Predict.features_temp now d !! 7%nat = Some v /\
       Predict.features_weather now d !! 5%nat = Some v /\
       Predict.features_humidity now d !! 4%nat = Some v) /\
  (DataCollector.pm10 d <> PyNone ->
     exists v, same_number v (DataCollector.pm10 d) /\
       Predict.features_temp now d !! 8%nat = Some v) /\
  length (Predict.features_temp now d) = 11%nat /\
  length (Predict.features_weather now d) = 9%nat /\
  length (Predict.features_humidity now d) = 7%nat /\
  take 7 (Predict.features_temp now d)
  = [ DataCollector.feels_like d; DataCollector.temp_min d; DataCollector.temp_max d;
      DataCollector.pressure d; DataCollector.humidity d; DataCollector.wind_speed d;
      DataCollector.clouds d ] /\
  take 5 (Predict.features_weather now d)
  = [ DataCollector.temperature d; DataCollector.humidity d; DataCollector.pressure d;
      DataCollector.wind_speed d; DataCollector.clouds d ] /\
  Predict.features_weather now d !! 6%nat = Some (Predict.aqi_value (DataCollector.aqi d)) /\
  (DataCollector.aqi d = None -> Predict.features_weather now d !! 6%nat = Some PyNone) /\
  take 4 (Predict.features_humidity now d)
  = [ DataCollector.temperature d; DataCollector.pressure d; DataCollector.wind_speed d;
      DataCollector.clouds d ] /\
  (forall self city_name p,
     Predict.predict_from self now city_name d = Return p ->
     Predict.p_current p
     = Predict.Current (DataCollector.temperature d) (DataCollector.feels_like d)
         (DataCollector.humidity d) (DataCollector.pressure d)
         (DataCollector.wind_speed d) (DataCollector.clouds d)
         (DataCollector.weather_main d) (DataCollector.weather_description d)
         (DataCollector.aqi d) (Predict.get_aqi_category (DataCollector.aqi d))
         (DataCollector.pm2_5 d) (DataCollector.pm10 d)).
Proof.
  split; [ | split; [ | split; [ | split]]].
  - intros Hpm. simpl. rewrite Hpm. repeat split.
  - intros Hpm. simpl. rewrite Hpm. reflexivity.
  - intros Hpm. exists (or_zero (DataCollector.pm2_5 d)).
    split; [apply or_zero_present; exact Hpm | repeat split].
  - intros Hpm. exists (or_zero (DataCollector.pm10 d)).
    split; [apply or_zero_present; exact Hpm | reflexivity].
  - repeat (split; [reflexivity | ]).
    split; [intros Haqi; simpl; rewrite Haqi; reflexivity | ].
    split; [reflexivity | ].
    intros self city_name p Hp. unfold Predict.predict_from in Hp.
    destruct (Predict.ml_predictions self now d); [ | discriminate]. simpl in Hp.
    destruct (Predict.get_health_advice _ _); [ | discriminate]. simpl in Hp.
    injection Hp as <-. reflexivity.
Qed.

(** ** Loading the artifacts *)

(** With only the humidity file missing, [load_models] leaves the temperature
    model, the classifier and the scaler unset as well, though their files are
    there. *)
Lemma humidity_file_missing_disables_all :
  is_Some (Predict.temperature_model_joblib dir_without_humidity) /\
  is_Some (Predict.weather_classifier_joblib dir_without_humidity) /\
  is_Some (Predict.scaler_joblib dir_without_humidity) /\
  Predict.humidity_model_joblib dir_without_humidity = None /\
  Predict.load_models dir_without_humidity = Return (Predict.Predictor None None None None).
Proof.
  repeat split; try (eexists; reflexivity).
Qed.

(** C2, amended: loading is all or nothing.  When the four files are there
    the four artifacts are set; when any one of them is missing all four
    attributes are [None], so every capability is off. *)
Theorem load_models_all_or_nothing (dir : Predict.model_dir) :
  (forall t w h s, dir = Predict.ModelDir (Some t) (Some w) (Some h) (Some s) ->
     Predict.load_models dir = Return (Predict.Predictor (Some t) (Some w) (Some h) (Some s))) /\
  (Predict.temperature_model_joblib dir = None \/
   Predict.weather_classifier_joblib dir = None \/
   Predict.humidity_model_joblib dir = None \/
   Predict.scaler_joblib dir = None ->
     Predict.load_models dir = Return (Predict.Predictor None None None None)).
Proof.
  split.
  - intros t w h s ->. reflexivity.
  - destruct dir as [[t | ] [w | ] [h | ] [s | ]]; simpl;
      intros [H | [H | [H | H]]]; try discriminate H; reflexivity.
Qed.

(** ** The ML block *)

Lemma predict_for_city_returns self w now city_name log p log' :
  Predict.predict_for_city self w now city_name log = (Return (Predict.Predictions p), log')
  <-> exists d, DataCollector.fetch_weather_data w city_name log = (Some d, log')
                /\ Predict.predict_from self now city_name d = Return p.
Proof.
  unfold Predict.predict_for_city.
  destruct (DataCollector.fetch_weather_data w city_name log) as [[d | ] log1].
  - destruct (Predict.predict_from self now city_name d) as [p1 | e] eqn:Hp; split.
    + intros [= <- <-]. eauto.
    + intros (d' & [= <- <-] & Hd'). congruence.
    + intros [=].
    + intros (d' & [= <- <-] & Hd'). congruence.
  - split; [intros [=] | intros (d' & [=] & _)].
Qed.

Lemma predict_from_inv self now city_name d p :
  Predict.predict_from self now city_name d = Return p ->
  exists advice,
    Predict.ml_predictions self now d = Return (Predict.p_ml_predictions p) /\
    Predict.get_health_advice (DataCollector.aqi d) (DataCollector.pm2_5 d) = Return advice.
Proof.
  unfold Predict.predict_from.
  destruct (Predict.ml_predictions self now d) as [ml | e]; simpl; [ | intros [=]].
  destruct (Predict.get_health_advice _ _) as [advice | e]; simpl; [ | intros [=]].
  intros [= <-]. exists advice. split; reflexivity.
Qed.

Lemma predict_from_intro self now city_name d ml advice :
  Predict.ml_predictions self now d = Return ml ->
  Predict.get_health_advice (DataCollector.aqi d) (DataCollector.pm2_5 d) = Return advice ->
  exists p, Predict.predict_from self now city_name d = Return p.
Proof.
  intros Hml Hadvice. unfold Predict.predict_from. rewrite Hml, Hadvice. simpl. eauto.
Qed.

Ltac case_calls H :=
  repeat match type of H with
         | context [obind ?m _] =>
             tryif (match m with context [obind _ _] => idtac end) then fail
             else (let x := fresh "x" in
                   let Hx := fresh "Hcall" in
                   destruct m as [x | ?] eqn:Hx; cbn [obind] in H; [ | discriminate H])
         | context [if ?b then _ else _] =>
             let Hb := fresh "Hcode" in destruct b eqn:Hb; cbn [obind] in H
         end.

Ltac replay_calls :=
  cbn [obind];
  repeat match goal with
         | Hx : ?m = _ |- context [?m] => rewrite Hx; cbn [obind]
         end.

Lemma ml_predictions_keys self now d o :
  Predict.ml_predictions self now d = Return o ->
  (is_Some o <-> is_Some (Predict.temp_model self) /\ is_Some (Predict.scaler self)) /\
  forall ml, o = Some ml ->
    (is_Some (Predict.predicted_humidity ml) <-> is_Some (Predict.humidity_model self)) /\
    (is_Some (Predict.predicted_weather ml) -> is_Some (Predict.weather_clf self)).
Proof.
  unfold Predict.ml_predictions.
  destruct self as [[t | ] [c | ] [h | ] [s | ]]; simpl; intros H;
    case_calls H; injection H as <-.
  all: split; [ rewrite ?is_Some_alt; simpl; tauto | ].
  all: intros ml [= <-] || (intros ml [=]).
  all: simpl; rewrite ?is_Some_alt; simpl; tauto.
Qed.

Lemma ml_predictions_fewer self self' now d o :
  drops_artifacts self' self ->
  Predict.ml_predictions self now d = Return o ->
  exists o', Predict.ml_predictions self' now d = Return o'.
Proof.
  intros (Ht & Hc & Hh & Hs) H. unfold Predict.ml_predictions in *.
  destruct self' as [t' c' h' s']; simpl in Ht, Hc, Hh, Hs |- *.
  destruct Ht as [-> | ->]; [eauto | ].
  destruct Hs as [-> | ->]; [destruct (Predict.temp_model self); eauto | ].
  destruct (Predict.temp_model self) as [t | ]; [ | eauto].
  destruct (Predict.scaler self) as [s | ]; [ | eauto].
  destruct (s _) as [scaled | ]; simpl in *; [ | discriminate H].
  destruct (t _) as [pred_temp | ]; simpl in *; [ | discriminate H].
  destruct (Predict.py_sub _ _) as [diff | ]; simpl in *; [ | discriminate H].
  destruct Hh as [-> | ->]; destruct Hc as [-> | ->]; simpl;
    destruct (Predict.humidity_model self) as [h | ];
    destruct (Predict.weather_clf self) as [c | ]; cbn [obind] in *;
    case_calls H; replay_calls; eauto.
Qed.

(** C8: in a returned prediction the key ["ml_predictions"] is there exactly
    when the temperature model and the scaler are both loaded; inside it
    [predicted_humidity] is there exactly when the humidity model is loaded,
    and [predicted_weather] only when the classifier is.  Taking artifacts
    away never turns a request that returned a prediction into one that does
    not, and without the temperature model or the scaler a fetched reading
    with an [aqi] always yields a prediction. *)
Theorem ml_block_follows_artifacts (self : Predict.predictor) (w : DataCollector.world)
    (now : datetime) (city_name : string) (log : list DataCollector.request) :
  (forall p log',
     Predict.predict_for_city self w now city_name log
     = (Return (Predict.Predictions p), log') ->
     (is_Some (Predict.p_ml_predictions p)
      <-> is_Some (Predict.temp_model self) /\ is_Some (Predict.scaler self)) /\
     forall ml, Predict.p_ml_predictions p = Some ml ->
       (is_Some (Predict.predicted_humidity ml) <-> is_Some (Predict.humidity_model self)) /\
       (is_Some (Predict.predicted_weather ml) -> is_Some (Predict.weather_clf self))) /\
  (forall self' p log',
     drops_artifacts self' self ->
     Predict.predict_for_city self w now city_name log
     = (Return (Predict.Predictions p), log') ->
     exists p', Predict.predict_for_city self' w now city_name log
                = (Return (Predict.Predictions p'), log')) /\
  (forall d log' a,
     DataCollector.fetch_weather_data w city_name log = (Some d, log') ->
     DataCollector.aqi d = Some a ->
     Predict.temp_model self = None \/ Predict.scaler self = None ->
     exists p, Predict.predict_for_city self w now city_name log
               = (Return (Predict.Predictions p), log')
               /\ Predict.p_ml_predictions p = None).
Proof.
  split; [ | split].
  - intros p log' Hp. apply predict_for_city_returns in Hp as (d & _ & Hp).
    apply predict_from_inv in Hp as (advice & Hml & _).
    exact (ml_predictions_keys _ _ _ _ Hml).
  - intros self' p log' Hdrop Hp.
    apply predict_for_city_returns in Hp as (d & Hfetch & Hp).
    apply predict_from_inv in Hp as (advice & Hml & Hadvice).
    destruct (ml_predictions_fewer _ _ _ _ _ Hdrop Hml) as (o' & Hml').
    destruct (predict_from_intro self' now city_name d o' advice Hml' Hadvice) as (p' & Hp').
    exists p'. apply predict_for_city_returns. eauto.
  - intros d log' a Hfetch Haqi Hmissing.
    assert (Hml : Predict.ml_predictions self now d = Return None).
    { unfold Predict.ml_predictions.
      destruct Hmissing as [-> | ->]; [reflexivity | ].
      destruct (Predict.temp_model self); reflexivity. }
    pose proof (health_advice_value a (DataCollector.pm2_5 d)) as Hadvice.
    rewrite <- Haqi in Hadvice.
    destruct (predict_from_intro self now city_name d None _ Hml Hadvice) as (p & Hp).
    exists p. split; [apply predict_for_city_returns; eauto | ].
    apply predict_from_inv in Hp as (advice & Hml' & _). congruence.
Qed.

(** ** Decoding the weather class *)

Lemma py_index_nonneg {A} (l : list A) (i : Z) :
  (0 <= i)%Z ->
  py_index l i = match l !! Z.to_nat i with
                 | Some x => Return x
                 | None => Raise (Exn IndexError "list index out of range")
                 end.
Proof.
  intros Hi. unfold py_index.
  assert (Hneg : (i <? 0)%Z = false) by (apply Z.ltb_ge; exact Hi).
  rewrite Hneg. cbn zeta. rewrite Hneg. reflexivity.
Qed.

Lemma ml_predictions_classifier self now d ml0 clf code :
  Predict.ml_predictions (without_classifier self) now d = Return (Some ml0) ->
  Predict.weather_clf self = Some clf ->
  clf (Predict.features_weather now d) = Return code ->
  Predict.predicted_weather ml0 = None /\
  Predict.ml_predictions self now d
  = if (code <? 6)%Z
    then match py_index Predict.weather_classes code with
         | Return cls =>
             Return (Some (Predict.Ml (Predict.predicted_temperature ml0)
                             (Predict.temp_difference ml0)
                             (Predict.predicted_humidity ml0) (Some cls)))
         | Raise e => Raise e
         end
    else Return (Some ml0).
Proof.
  unfold Predict.ml_predictions, without_classifier. cbn [Predict.temp_model
    Predict.scaler Predict.humidity_model Predict.weather_clf].
  intros H Hclf Hcode. rewrite Hclf.
  destruct (Predict.temp_model self) as [t | ]; [ | discriminate H].
  destruct (Predict.scaler self) as [s | ]; [ | discriminate H].
  destruct (Predict.humidity_model self) as [h | ]; case_calls H.
  all: injection H as <-; replay_calls.
  all: change (Z.of_nat (length Predict.weather_classes)) with 6%Z.
  all: split; [reflexivity | ].
  all: destruct (code <? 6)%Z; [ | reflexivity].
  all: destruct (py_index Predict.weather_classes code); reflexivity.
Qed.

(** C9: when the classifier is loaded and predicts class [code], the request
    returns what it returns without the classifier, with
    [weather_classes[code]] of the fixed list under [predicted_weather] for
    [0 <= code < 6], and unchanged, with no [predicted_weather] key and no
    error, for [code >= 6].  The list is fixed in [predict.py], whatever the
    label encoder did in training: on the generated data set the encoder
    numbers "Drizzle" 2 and "Rain" 5, which are decoded as "Rain" and
    "Thunderstorm". *)
Theorem weather_code_decoding (self : Predict.predictor) (w : DataCollector.world)
    (now : datetime) (city_name : string) (log log' : list DataCollector.request)
    (d : DataCollector.reading) (p0 : Predict.prediction) (ml0 : Predict.ml_block)
    (clf : Predict.classifier) (code : Z) :
  DataCollector.fetch_weather_data w city_name log = (Some d, log') ->
  Predict.predict_for_city (without_classifier self) w now city_name log
  = (Return (Predict.Predictions p0), log') ->
  Predict.p_ml_predictions p0 = Some ml0 ->
  Predict.weather_clf self = Some clf ->
  clf (Predict.features_weather now d) = Return code ->
  Predict.predicted_weather ml0 = None /\
  ((0 <= code < 6)%Z ->
     exists cls,
       ["Clear"; "Clouds"; "Rain"; "Drizzle"; "Snow"; "Thunderstorm"] !! Z.to_nat code
       = Some cls /\
       Predict.predict_for_city self w now city_name log
       = (Return (Predict.Predictions (with_predicted_weather cls p0 ml0)), log')) /\
  ((6 <= code)%Z ->
     Predict.predict_for_city self w now city_name log
     = (Return (Predict.Predictions p0), log')) /\
  TrainModel.classes_ weather_conditions
  = ["Clear"; "Clouds"; "Drizzle"; "Haze"; "Mist"; "Rain"] /\
  TrainModel.transform (TrainModel.classes_ weather_conditions) "Drizzle" = Some 2%nat /\
  Predict.weather_classes !! 2%nat = Some "Rain" /\
  TrainModel.transform (TrainModel.classes_ weather_conditions) "Rain" = Some 5%nat /\
  Predict.weather_classes !! 5%nat = Some "Thunderstorm".
Proof.
  intros Hfetch Hp0 Hml0 Hclf Hcode.
  apply predict_for_city_returns in Hp0 as (d' & Hfetch' & Hp0).
  assert (d' = d) by congruence. subst d'.
  pose proof (predict_from_inv _ _ _ _ _ Hp0) as (advice & Hblock & Hadvice).
  rewrite Hml0 in Hblock.
  destruct (ml_predictions_classifier _ _ _ _ _ _ Hblock Hclf Hcode) as (Hkey & Hml).
  split; [exact Hkey | ]. split; [ | split; [ | repeat split]].
  - intros [Hlo Hhi].
    assert (Hlt : (code <? 6)%Z = true) by (apply Z.ltb_lt; exact Hhi).
    rewrite Hlt, (py_index_nonneg _ _ Hlo) in Hml.
    change Predict.weather_classes
      with ["Clear"; "Clouds"; "Rain"; "Drizzle"; "Snow"; "Thunderstorm"] in Hml.
    destruct (lookup_lt_is_Some_2
                ["Clear"; "Clouds"; "Rain"; "Drizzle"; "Snow"; "Thunderstorm"]
                (Z.to_nat code)) as (cls & Hcls); [simpl length; lia | ].
    rewrite Hcls in Hml. exists cls. split; [exact Hcls | ].
    apply predict_for_city_returns. exists d. split; [exact Hfetch | ].
    unfold Predict.predict_from. rewrite Hml, Hadvice. cbn [obind].
    unfold Predict.predict_from in Hp0. rewrite Hblock, Hadvice in Hp0.
    cbn [obind] in Hp0. injection Hp0 as <-. reflexivity.
  - intros Hhi.
    assert (Hge : (code <? 6)%Z = false) by (apply Z.ltb_ge; exact Hhi).
    rewrite Hge in Hml.
    apply predict_for_city_returns. exists d. split; [exact Hfetch | ].
    unfold Predict.predict_from. rewrite Hml, Hadvice. cbn [obind].
    unfold Predict.predict_from in Hp0. rewrite Hblock, Hadvice in Hp0.
    cbn [obind] in Hp0. injection Hp0 as <-. reflexivity.
Qed.

Example delhi_is_fetched :
  DataCollector.fetch_weather_data online "Delhi" [] = (Some delhi_reading, delhi_requests).
Proof. vm_compute. reflexivity. Qed.

Example delhi_with_all_models :
  Predict.predict_for_city (all_models 2) online noon "Delhi" []
  = (Return (Predict.Predictions (delhi_prediction (Some (delhi_ml (Some "Rain"))))),
     delhi_requests).
Proof. vm_compute. reflexivity. Qed.

Example delhi_without_models :
  Predict.predict_for_city no_models online noon "Delhi" []
  = (Return (Predict.Predictions (delhi_prediction None)), delhi_requests).
Proof. vm_compute. reflexivity. Qed.

Lemma weather_code_decoding_witness :
  Predict.predict_for_city (all_models 2) online noon "Delhi" []
  = (Return (Predict.Predictions (delhi_prediction (Some (delhi_ml (Some "Rain"))))),
     delhi_requests) /\
  Predict.predict_for_city (all_models 7) online noon "Delhi" []
  = (Return (Predict.Predictions (delhi_prediction (Some (delhi_ml None)))),
     delhi_requests).
Proof.
  assert (Hfetch : DataCollector.fetch_weather_data online "Delhi" []
                   = (Some delhi_reading, delhi_requests))
    by (vm_compute; reflexivity).
  split.
  - assert (Hp0 : Predict.predict_for_city (without_classifier (all_models 2)) online noon
                    "Delhi" []
                  = (Return (Predict.Predictions (delhi_prediction (Some (delhi_ml None)))),
                     delhi_requests))
      by (vm_compute; reflexivity).
    destruct (weather_code_decoding (all_models 2) online noon "Delhi" [] delhi_requests
                delhi_reading (delhi_prediction (Some (delhi_ml None))) (delhi_ml None)
                (constant_classifier 2) 2 Hfetch Hp0 eq_refl eq_refl eq_refl)
      as (_ & Hdecoded & _).
    destruct (Hdecoded ltac:(lia)) as (cls & Hcls & Hrun).
    injection Hcls as <-. exact Hrun.
  - assert (Hp0 : Predict.predict_for_city (without_classifier (all_models 7)) online noon
                    "Delhi" []
                  = (Return (Predict.Predictions (delhi_prediction (Some (delhi_ml None)))),
                     delhi_requests))
      by (vm_compute; reflexivity).
    destruct (weather_code_decoding (all_models 7) online noon "Delhi" [] delhi_requests
                delhi_reading (delhi_prediction (Some (delhi_ml None))) (delhi_ml None)
                (constant_classifier 7) 7 Hfetch Hp0 eq_refl eq_refl eq_refl)
      as (_ & _ & Homitted & _).
    apply Homitted. lia.
Defined.

(** ** Live acquisition *)

Lemma falsy_zero (q : Q) : (q == 0)%Q -> negb (py_truthy (PyNum q)) = true.
Proof. intros Hq. apply negb_true_iff. apply py_truthy_num. exact Hq. Qed.

(** C10: when the geocoder answers with a latitude or a longitude equal to
    zero, [fetch_weather_data] returns [None] after the geocoding request
    alone, with no weather and no air-pollution request, and [predict]
    answers from the fallback. *)
Theorem zero_coordinate_is_not_found (w : DataCollector.world) (city_name : string)
    (log : list DataCollector.request) (place : DataCollector.geo_entry)
    (others : list DataCollector.geo_entry) :
  DataCollector.geo_api w city_name = Some (place :: others) ->
  (DataCollector.lat place == 0 \/ DataCollector.lon place == 0)%Q ->
  DataCollector.fetch_weather_data w city_name log
  = (None, log ++ [DataCollector.GeoRequest city_name]) /\
  (forall predictor now,
     Predict.predict_for_city predictor w now city_name log
     = (Return (Predict.ErrorDict ("Could not fetch data for " +:+ city_name)),
        log ++ [DataCollector.GeoRequest city_name])) /\
  (forall predictor g now,
     App.predict predictor g w now (Some city_name) log
     = (App.fallback_response predictor g city_name,
        log ++ [DataCollector.GeoRequest city_name])).
Proof.
  intros Hgeo Hzero.
  assert (Hfetch : DataCollector.fetch_weather_data w city_name log
                   = (None, log ++ [DataCollector.GeoRequest city_name])).
  { unfold DataCollector.fetch_weather_data, DataCollector.get_coordinates.
    rewrite Hgeo.
    destruct Hzero as [Hz | Hz]; rewrite (falsy_zero _ Hz);
      [ | rewrite orb_true_r]; reflexivity. }
  split; [exact Hfetch | ].
  assert (Hlive : forall predictor now,
            Predict.predict_for_city predictor w now city_name log
            = (Return (Predict.ErrorDict ("Could not fetch data for " +:+ city_name)),
               log ++ [DataCollector.GeoRequest city_name])).
  { intros predictor now. unfold Predict.predict_for_city. rewrite Hfetch. reflexivity. }
  split; [exact Hlive | ].
  intros predictor g now. unfold App.predict. simpl. rewrite Hlive. reflexivity.
Qed.

Lemma zero_coordinate_is_not_found_witness :
  DataCollector.fetch_weather_data on_equator "Quito" []
  = (None, [DataCollector.GeoRequest "Quito"]) /\
  App.predict (all_models 2) (App.load_sample_data App.NoFile) on_equator noon
    (Some "Quito") []
  = (App.Response 404 false (App.Error App.no_data_error),
     [DataCollector.GeoRequest "Quito"]).
Proof.
  destruct (zero_coordinate_is_not_found on_equator "Quito" []
              (DataCollector.GeoEntry 0 (91 # 10)) [] eq_refl
              (or_introl (Qeq_refl 0)))
    as (Hfetch & _ & Hpredict).
  split; [exact Hfetch | ].
  rewrite Hpredict. reflexivity.
Defined.

(** ** The fallback *)

Lemma py_index_last {A} (l : list A) :
  py_index l (-1) = match last l with
                    | Some x => Return x
                    | None => Raise (Exn IndexError "list index out of range")
                    end.
Proof.
  unfold py_index. cbn zeta.
  change (-1 <? 0)%Z with true. cbn iota.
  rewrite last_lookup.
  destruct l as [ | x l]; [reflexivity | ].
  assert (Hpos : (Z.of_nat (length (x :: l)) + -1 <? 0)%Z = false).
  { apply Z.ltb_ge. simpl length. lia. }
  rewrite Hpos.
  replace (Z.to_nat (Z.of_nat (length (x :: l)) + -1)) with (Nat.pred (length (x :: l)))
    by (simpl length; lia).
  reflexivity.
Qed.

Lemma py_int_whole (c : option Q) (z : Z) : whole c z -> py_int (App.cell c) = Return z.
Proof. intros (q & -> & ->). reflexivity. Qed.

Lemma py_float_cell (c : option Q) : py_float (App.cell c) = Return (App.cell c).
Proof. destruct c; reflexivity. Qed.

Lemma sample_of_latest (rows : list App.row) (city : string) (r : App.row)
    (humidity pressure clouds aqi : Z) :
  last (match filter (fun r => App.col_city r = city) rows with
        | [] => rows
        | _ :: _ => filter (fun r => App.col_city r = city) rows
        end) = Some r ->
  whole (App.col_humidity r) humidity -> whole (App.col_pressure r) pressure ->
  whole (App.col_clouds r) clouds -> whole (App.col_aqi r) aqi ->
  App.get_sample_city_data (App.load_sample_data (App.Csv rows)) city
  = Return (Some (shown city r humidity pressure clouds aqi None)).
Proof.
  intros Hlast Hh Hp Hc Ha.
  assert (Hrows : (0 <? length rows)%nat = true).
  { destruct rows; [discriminate Hlast | reflexivity]. }
  unfold App.get_sample_city_data.
  cbn [App.load_sample_data App.has_data App.sample_data]. rewrite Hrows.
  cbn [negb obind].
  rewrite py_index_last, Hlast. cbn [obind].
  rewrite !py_float_cell, (py_int_whole _ _ Hh), (py_int_whole _ _ Hp),
    (py_int_whole _ _ Hc), (py_int_whole _ _ Ha).
  reflexivity.
Qed.

Lemma live_failure_falls_back predictor g w now city log :
  fst (DataCollector.fetch_weather_data w city log) = None ->
  fst (App.predict predictor g w now (Some city) log) = App.fallback_response predictor g city.
Proof.
  intros Hlive. unfold App.predict, Predict.predict_for_city.
  change (default Config.DEFAULT_CITY (Some city)) with city.
  destruct (DataCollector.fetch_weather_data w city log) as [[d | ] log1];
    [discriminate Hlive | reflexivity].
Qed.

Lemma fallback_serves predictor rows city r humidity pressure clouds aqi :
  last (match filter (fun r => App.col_city r = city) rows with
        | [] => rows
        | _ :: _ => filter (fun r => App.col_city r = city) rows
        end) = Some r ->
  whole (App.col_humidity r) humidity -> whole (App.col_pressure r) pressure ->
  whole (App.col_clouds r) clouds -> whole (App.col_aqi r) aqi ->
  exists advice,
    Predict.get_health_advice (Some aqi) (App.cell (App.col_pm2_5 r)) = Return advice /\
    App.fallback_response predictor (App.load_sample_data (App.Csv rows)) city
    = App.Response 200 true
        (App.Data (shown city r humidity pressure clouds aqi (Some advice))).
Proof.
  intros Hlast Hh Hp Hc Ha. eexists. split; [apply health_advice_value | ].
  unfold App.fallback_response.
  rewrite (sample_of_latest _ _ _ _ _ _ _ Hlast Hh Hp Hc Ha). cbn [obind].
  cbn [shown Predict.p_current Predict.cur_aqi Predict.cur_pm2_5].
  rewrite health_advice_value. reflexivity.
Qed.

(** C1: with the latest row of X lacking its humidity, a request for X while
    the service is down is not answered with that row, although the dataset
    has rows of X: [get_sample_city_data] raises at
    [int(latest['humidity'])] and [predict] answers with status 500 and the
    text of the [ValueError]. *)
Lemma latest_row_without_humidity :
  fst (DataCollector.fetch_weather_data offline "X" []) = None /\
  last (filter (fun r => App.col_city r = "X") rows_with_gap) = Some x_gap /\
  fst (App.predict no_models (App.load_sample_data (App.Csv rows_with_gap)) offline noon
         (Some "X") [])
  = App.Response 500 false (App.Error "cannot convert float NaN to integer").
Proof. repeat split; vm_compute; reflexivity. Qed.

(** The same request is served when it is the wind speed that the latest row
    of X lacks: [float] lets the empty cell through as NaN. *)
Example latest_row_without_wind_speed :
  fst (App.predict no_models (App.load_sample_data (App.Csv [x_old; y_old; x_calm])) offline
         noon (Some "X") [])
  = App.Response 200 true
      (App.Data (shown "X" x_calm 60 1010 20 3 (Some Predict.advice_moderate))) /\
  Predict.cur_wind_speed
    (Predict.p_current (shown "X" x_calm 60 1010 20 3 (Some Predict.advice_moderate)))
  = PyNaN.
Proof. split; vm_compute; reflexivity. Qed.

(** X19: when live acquisition fails, [predict] answers from the
    dataset.  If rows of the requested city exist, the last of them is
    served; if none exists but the dataset has rows, the last row of the
    dataset is served under the requested city's name; both provided the
    humidity, pressure, clouds and aqi cells of that row are filled (they are
    converted with [int]).  If the file is missing, unreadable or has no
    rows, the answer is status 404 with the text that tells the operator to
    run [generate_sample_data.py]. *)
Theorem fallback_resolution (predictor : Predict.predictor) (file : App.dataset_file)
    (w : DataCollector.world) (now : datetime) (data : option string)
    (log : list DataCollector.request) :
  let city := default Config.DEFAULT_CITY data in
  fst (DataCollector.fetch_weather_data w city log) = None ->
  let answer := fst (App.predict predictor (App.load_sample_data file) w now data log) in
  let serves (r : App.row) :=
    forall humidity pressure clouds aqi,
      whole (App.col_humidity r) humidity -> whole (App.col_pressure r) pressure ->
      whole (App.col_clouds r) clouds -> whole (App.col_aqi r) aqi ->
      exists advice,
        Predict.get_health_advice (Some aqi) (App.cell (App.col_pm2_5 r)) = Return advice /\
        answer = App.Response 200 true
                   (App.Data (shown city r humidity pressure clouds aqi (Some advice))) in
  (forall rows r, file = App.Csv rows ->
     last (filter (fun r => App.col_city r = city) rows) = Some r ->
     App.col_city r = city /\ serves r) /\
  (forall rows r, file = App.Csv rows ->
     filter (fun r => App.col_city r = city) rows = [] -> last rows = Some r ->
     serves r) /\
  (file = App.NoFile \/ (exists e, file = App.Unreadable e) \/ file = App.Csv [] ->
   answer = App.Response 404 false (App.Error App.no_data_error)).
Proof.
  intros city Hlive answer serves.
  assert (Hanswer : answer = App.fallback_response predictor (App.load_sample_data file) city).
  { subst answer. destruct data as [c | ]; apply live_failure_falls_back; exact Hlive. }
  subst serves. cbv beta. rewrite Hanswer. clear Hanswer answer.
  split; [ | split].
  - intros rows r -> Hlast. split.
    + apply last_Some_elem_of in Hlast.
      apply list_elem_of_filter in Hlast. tauto.
    + intros humidity pressure clouds aqi Hh Hp Hc Ha.
      apply fallback_serves; try assumption.
      destruct (filter _ rows); [discriminate Hlast | exact Hlast].
  - intros rows r -> Hnone Hlast humidity pressure clouds aqi Hh Hp Hc Ha.
    apply fallback_serves; try assumption.
    rewrite Hnone. exact Hlast.
  - intros [-> | [[e ->] | ->]]; reflexivity.
Qed.

Lemma whole_intro (q : Q) : whole (Some q) (Z.quot (Qnum q) (Zpos (Qden q))).
Proof. exists q. split; reflexivity. Qed.

Lemma fallback_resolution_witness :
  fst (App.predict no_models (App.load_sample_data (App.Csv xy_rows)) offline noon
         (Some "X") [])
  = App.Response 200 true
      (App.Data (shown "X" x_new 40 1010 20 3 (Some Predict.advice_moderate))) /\
  fst (App.predict no_models (App.load_sample_data (App.Csv xy_rows)) offline noon
         (Some "Z") [])
  = App.Response 200 true
      (App.Data (shown "Z" y_new 65 1010 20 2 (Some Predict.advice_poor))) /\
  fst (App.predict no_models (App.load_sample_data (App.Csv [])) offline noon
         (Some "X") [])
  = App.Response 404 false (App.Error App.no_data_error).
Proof.
  split; [ | split].
  - destruct (fallback_resolution no_models (App.Csv xy_rows) offline noon (Some "X") []
                eq_refl) as (Hcity & _ & _).
    destruct (Hcity xy_rows x_new eq_refl eq_refl) as (_ & Hserves).
    destruct (Hserves 40%Z 1010%Z 20%Z 3%Z (whole_intro (405 # 10)) (whole_intro 1010)
                (whole_intro 20) (whole_intro 3)) as (advice & Hadvice & Hanswer).
    vm_compute in Hadvice. injection Hadvice as <-. exact Hanswer.
  - destruct (fallback_resolution no_models (App.Csv xy_rows) offline noon (Some "Z") []
                eq_refl) as (_ & Hany & _).
    destruct (Hany xy_rows y_new eq_refl eq_refl eq_refl 65%Z 1010%Z 20%Z 2%Z
                (whole_intro 65) (whole_intro 1010) (whole_intro 20) (whole_intro 2))
      as (advice & Hadvice & Hanswer).
    vm_compute in Hadvice. injection Hadvice as <-. exact Hanswer.
  - destruct (fallback_resolution no_models (App.Csv []) offline noon (Some "X") []
                eq_refl) as (_ & _ & Hnone).
    apply Hnone. right. right. reflexivity.
Defined.

(** ** Choosing the temperature model *)

(** C7: the temperature trainer fits the scaler on the training part of the
    split (test size 1/5, random state 42) alone, fits the two candidates on
    the same scaled training part, scores both by mean absolute error on the
    same scaled test part, and saves the scaler with one model: the second
    candidate when its error is strictly lower, the first one otherwise, so
    also on a tie. *)
Theorem temperature_model_selection (fitted fitted_scaler : Type)
    (train_test_split :
       list (list Q) -> list Q -> Q -> Z ->
       list (list Q) * list (list Q) * list Q * list Q)
    (scaler_fit : list (list Q) -> fitted_scaler)
    (scaler_transform : fitted_scaler -> list (list Q) -> list (list Q))
    (RandomForestRegressor GradientBoostingRegressor :
       Z -> Z -> Z -> list (list Q) -> list Q -> fitted)
    (model_predict : fitted -> list (list Q) -> list Q)
    (df : list TrainModel.sample)
    (X_train X_test : list (list Q)) (y_train y_test : list Q) (mae_rf mae_gb : Q) :
  train_test_split (map TrainModel.features df) (map TrainModel.s_temperature df)
    (1 # 5)%Q 42%Z = (X_train, X_test, y_train, y_test) ->
  let scaler := scaler_fit X_train in
  let X_train_scaled := scaler_transform scaler X_train in
  let X_test_scaled := scaler_transform scaler X_test in
  let rf := RandomForestRegressor 200%Z 15%Z 42%Z X_train_scaled y_train in
  let gb := GradientBoostingRegressor 150%Z 10%Z 42%Z X_train_scaled y_train in
  let trained :=
    TrainModel.train_temperature_model fitted fitted_scaler train_test_split scaler_fit
      scaler_transform RandomForestRegressor GradientBoostingRegressor model_predict df in
  TrainModel.mean_absolute_error y_test (model_predict rf X_test_scaled) = Return mae_rf ->
  TrainModel.mean_absolute_error y_test (model_predict gb X_test_scaled) = Return mae_gb ->
  length (TrainModel.models fitted RandomForestRegressor GradientBoostingRegressor) = 2%nat /\
  ((mae_gb < mae_rf)%Q ->
     trained = Return (TrainModel.Saved fitted fitted_scaler (Some gb) scaler)) /\
  ((mae_rf <= mae_gb)%Q ->
     trained = Return (TrainModel.Saved fitted fitted_scaler (Some rf) scaler)).
Proof.
  intros Hsplit scaler X_train_scaled X_test_scaled rf gb trained Hrf Hgb.
  assert (Htrained :
    trained = Return (TrainModel.Saved fitted fitted_scaler
                        (Some (if Qltb mae_gb mae_rf then gb else rf)) scaler)).
  { subst trained. unfold TrainModel.train_temperature_model.
    rewrite Hsplit. fold scaler X_train_scaled X_test_scaled.
    unfold TrainModel.models. cbn [TrainModel.evaluate].
    fold rf gb. rewrite Hrf. cbn [obind TrainModel.below].
    rewrite Hgb. cbn [obind TrainModel.below].
    destruct (Qltb mae_gb mae_rf); reflexivity. }
  split; [reflexivity | ]. rewrite Htrained. split.
  - intros Hlt. apply Qltb_lt in Hlt. rewrite Hlt. reflexivity.
  - intros Hle. apply Qltb_ge in Hle. rewrite Hle. reflexivity.
Qed.

Lemma temperature_model_selection_witness :
  toy_train (252 # 10) (249 # 10) = Return (TrainModel.Saved Q unit (Some (249 # 10)) tt) /\
  toy_train 25 25 = Return (TrainModel.Saved Q unit (Some 25%Q) tt).
Proof.
  split.
  - refine (proj1 (proj2 (temperature_model_selection Q unit last_row_split
                            (fun _ => tt) (fun _ X => X)
                            (constant_learner (252 # 10)) (constant_learner (249 # 10))
                            constant_predict five_samples _ _ _ _ (6 # 5) (9 # 10)
                            eq_refl eq_refl eq_refl)) _).
    reflexivity.
  - refine (proj2 (proj2 (temperature_model_selection Q unit last_row_split
                            (fun _ => tt) (fun _ X => X)
                            (constant_learner 25) (constant_learner 25)
                            constant_predict five_samples _ _ _ _ 1 1
                            eq_refl eq_refl eq_refl)) _).
    discriminate.
Defined.

(** * Further properties *)

(** ** Requests and parsing *)

Lemma parse_data_inv now city_name weather_data aqi_data d :
  DataCollector._parse_data now city_name weather_data aqi_data = Some d ->
  DataCollector.city d = city_name /\ DataCollector.timestamp d = now.
Proof.
  unfold DataCollector._parse_data.
  destruct (py_index _ 0) as [weather | ]; [ | discriminate].
  cbn [obind]. destruct (py_index _ 0) as [aqi_list | ]; [ | discriminate].
  cbn [obind]. intros [= <-]. split; reflexivity.
Qed.

(** X1: [fetch_weather_data] sends the geocoding request first, then at most
    one weather request and one air-pollution request, both at the
    coordinates of the first geocoding result and in that order; the
    air-pollution request is sent only when the weather request was answered.
    A reading is returned only when all three were sent, and it carries the
    requested name and the clock's time. *)
Theorem fetch_request_discipline (w : DataCollector.world) (city_name : string)
    (log : list DataCollector.request) :
  let answer := DataCollector.fetch_weather_data w city_name log in
  exists sent,
    snd answer = log ++ sent /\
    (sent = [DataCollector.GeoRequest city_name] \/
     exists place others,
       DataCollector.geo_api w city_name = Some (place :: others) /\
       let lat := PyNum (DataCollector.lat place) in
       let lon := PyNum (DataCollector.lon place) in
       (sent = [DataCollector.GeoRequest city_name; DataCollector.WeatherRequest lat lon]
        /\ DataCollector.weather_api w lat lon = None) \/
       (sent = [DataCollector.GeoRequest city_name; DataCollector.WeatherRequest lat lon;
                DataCollector.AirPollutionRequest lat lon]
        /\ is_Some (DataCollector.weather_api w lat lon))) /\
    (forall d, fst answer = Some d ->
       length sent = 3%nat /\ DataCollector.city d = city_name /\
       DataCollector.timestamp d = DataCollector.clock w).
Proof.
  cbn zeta. unfold DataCollector.fetch_weather_data, DataCollector.get_coordinates.
  destruct (DataCollector.geo_api w city_name) as [[ | place others] | ];
    try (eexists; split; [reflexivity | split; [left; reflexivity | intros d [=]]]).
  destruct (negb (py_truthy (PyNum (DataCollector.lat place)))
            || negb (py_truthy (PyNum (DataCollector.lon place))));
    [eexists; split; [reflexivity | split; [left; reflexivity | intros d [=]]] | ].
  destruct (DataCollector.weather_api w _ _) as [weather_data | ] eqn:Hweather.
  - exists [DataCollector.GeoRequest city_name;
            DataCollector.WeatherRequest (PyNum (DataCollector.lat place))
              (PyNum (DataCollector.lon place));
            DataCollector.AirPollutionRequest (PyNum (DataCollector.lat place))
              (PyNum (DataCollector.lon place))].
    assert (Hshape : exists place0 others0,
              Some (place :: others) = Some (place0 :: others0) /\
              let lat := PyNum (DataCollector.lat place0) in
              let lon := PyNum (DataCollector.lon place0) in
              ([DataCollector.GeoRequest city_name;
                DataCollector.WeatherRequest (PyNum (DataCollector.lat place))
                  (PyNum (DataCollector.lon place));
                DataCollector.AirPollutionRequest (PyNum (DataCollector.lat place))
                  (PyNum (DataCollector.lon place))]
               = [DataCollector.GeoRequest city_name;
                  DataCollector.WeatherRequest lat lon]
               /\ DataCollector.weather_api w lat lon = None) \/
              ([DataCollector.GeoRequest city_name;
                DataCollector.WeatherRequest (PyNum (DataCollector.lat place))
                  (PyNum (DataCollector.lon place));
                DataCollector.AirPollutionRequest (PyNum (DataCollector.lat place))
                  (PyNum (DataCollector.lon place))]
               = [DataCollector.GeoRequest city_name;
                  DataCollector.WeatherRequest lat lon;
                  DataCollector.AirPollutionRequest lat lon]
               /\ is_Some (DataCollector.weather_api w lat lon))).
    { exists place, others. split; [reflexivity | ]. right.
      split; [reflexivity | ]. rewrite Hweather. eexists. reflexivity. }
    destruct (DataCollector.air_pollution_api w _ _) as [aqi_data | ];
      (split; [cbn [snd]; rewrite <- !app_assoc; reflexivity | ]);
      (split; [right; exact Hshape | ]).
    + cbn [fst]. intros d Hd. apply parse_data_inv in Hd. tauto.
    + intros d [=].
  - exists [DataCollector.GeoRequest city_name;
            DataCollector.WeatherRequest (PyNum (DataCollector.lat place))
              (PyNum (DataCollector.lon place))].
    split; [cbn [snd]; rewrite <- !app_assoc; reflexivity | ].
    split; [ | intros d [=]].
    right. exists place, others. split; [reflexivity | ]. left.
    split; [reflexivity | exact Hweather].
Qed.

Lemma py_index_head {A} (l : list A) :
  py_index l 0 = match l with
                 | x :: _ => Return x
                 | [] => Raise (Exn IndexError "list index out of range")
                 end.
Proof. destruct l; reflexivity. Qed.

(** X2: [_parse_data] gives up (returns [None]) exactly when the ["weather"]
    array or the ["list"] array of the answers is there but empty; a key
    that is missing altogether does no harm.  With no ["main"] block, the
    six fields read from it are [None] in the reading, not zero. *)
Theorem parse_data_gives_up (now : datetime) (city_name : string)
    (weather_data : DataCollector.weather_json) (aqi_data : DataCollector.air_json) :
  let parsed := DataCollector._parse_data now city_name weather_data aqi_data in
  (parsed = None <->
   DataCollector.wj_weather weather_data = Some [] \/
   DataCollector.aj_list aqi_data = Some []) /\
  (forall d, parsed = Some d ->
     DataCollector.wj_main weather_data = None -> no_main_fields d).
Proof.
  cbn zeta. unfold DataCollector._parse_data. rewrite !py_index_head.
  destruct weather_data as [main wind clouds weather], aqi_data as [air]. cbn.
  destruct weather as [[ | weather ?] | ]; cbn [default obind];
    destruct air as [[ | air ?] | ]; cbn [default obind];
    (split; [split; [try discriminate; auto | intros [[=] | [=]]; reflexivity] | ]);
    intros d Hd Hmain; try discriminate Hd;
    injection Hd as <-; cbn in Hmain; subst main; repeat split.
Qed.

(** ** Collecting into the dataset *)

Lemma fetch_weather_data_log (w : DataCollector.world) (city_name : string)
    (log : list DataCollector.request) :
  fst (DataCollector.fetch_weather_data w city_name log)
  = fst (DataCollector.fetch_weather_data w city_name []).
Proof.
  unfold DataCollector.fetch_weather_data, DataCollector.get_coordinates.
  destruct (DataCollector.geo_api w city_name) as [[ | place others] | ];
    try reflexivity.
  destruct (negb _ || negb _); [reflexivity | ].
  destruct (DataCollector.weather_api w _ _); [ | reflexivity].
  destruct (DataCollector.air_pollution_api w _ _); reflexivity.
Qed.

Lemma fetch_all_readings (w : DataCollector.world) (cities : list string)
    (log : list DataCollector.request) :
  fst (Collect.fetch_all w cities log)
  = omap (fun city_name => fst (DataCollector.fetch_weather_data w city_name [])) cities.
Proof.
  revert log. induction cities as [ | city_name cities IH]; intros log; [reflexivity | ].
  cbn [Collect.fetch_all omap list_omap].
  rewrite <- (fetch_weather_data_log w city_name log).
  destruct (DataCollector.fetch_weather_data w city_name log) as [data log1].
  specialize (IH log1).
  destruct (Collect.fetch_all w cities log1) as [all_data log2].
  cbn [fst] in *. rewrite <- IH.
  destruct data; reflexivity.
Qed.

Lemma collect_and_save_lines (as_row : DataCollector.reading -> App.row)
    (w : DataCollector.world) (cities : option (list string))
    (file : App.dataset_file) (log : list DataCollector.request) :
  let fetched :=
    omap (fun city_name => fst (DataCollector.fetch_weather_data w city_name []))
      (default Config.CITIES cities) in
  let lines := map as_row fetched in
  fst (Collect.collect_and_save as_row w cities file log)
  = match fetched, file with
    | [], _ => (Return None, file)
    | _ :: _, App.NoFile => (Return (Some lines), App.Csv lines)
    | _ :: _, App.Csv existing => (Return (Some (existing ++ lines)), App.Csv (existing ++ lines))
    | _ :: _, App.Unreadable e => (Raise e, App.Unreadable e)
    end.
Proof.
  cbn zeta. unfold Collect.collect_and_save.
  rewrite <- (fetch_all_readings w _ log).
  destruct (Collect.fetch_all w _ log) as [[ | data all_data] log1]; cbn [fst];
    [reflexivity | ].
  destruct file; reflexivity.
Qed.

(** X3: [collect_and_save] adds one line for each city whose reading could
    be fetched, in the order of the city list, behind the lines the file
    already had, and returns the whole frame.  When no city could be fetched
    it returns [None] and does not touch the file; when readings were
    fetched but the file cannot be read, the exception of [read_csv] comes
    out and the file stays as it was. *)
Theorem collect_and_save_appends (as_row : DataCollector.reading -> App.row)
    (w : DataCollector.world) (cities : option (list string))
    (file : App.dataset_file) (log : list DataCollector.request) :
  let fetched :=
    omap (fun city_name => fst (DataCollector.fetch_weather_data w city_name []))
      (default Config.CITIES cities) in
  let lines := map as_row fetched in
  fst (Collect.collect_and_save as_row w cities file log)
  = match fetched, file with
    | [], _ => (Return None, file)
    | _ :: _, App.NoFile => (Return (Some lines), App.Csv lines)
    | _ :: _, App.Csv existing => (Return (Some (existing ++ lines)), App.Csv (existing ++ lines))
    | _ :: _, App.Unreadable e => (Raise e, App.Unreadable e)
    end.
Proof. exact (collect_and_save_lines as_row w cities file log). Qed.

Lemma fetch_weather_data_city (w : DataCollector.world) (city_name : string)
    (log : list DataCollector.request) (d : DataCollector.reading) :
  fst (DataCollector.fetch_weather_data w city_name log) = Some d ->
  DataCollector.city d = city_name.
Proof.
  unfold DataCollector.fetch_weather_data, DataCollector.get_coordinates.
  destruct (DataCollector.geo_api w city_name) as [[ | place others] | ];
    try discriminate.
  destruct (negb _ || negb _); [discriminate | ].
  destruct (DataCollector.weather_api w _ _); [ | discriminate].
  destruct (DataCollector.air_pollution_api w _ _); [ | discriminate].
  cbn [fst]. intros Hd. apply parse_data_inv in Hd. tauto.
Qed.

Lemma fetch_weather_data_stamp (w : DataCollector.world) (city_name : string)
    (log : list DataCollector.request) (d : DataCollector.reading) :
  fst (DataCollector.fetch_weather_data w city_name log) = Some d ->
  DataCollector.timestamp d = DataCollector.clock w.
Proof.
  unfold DataCollector.fetch_weather_data, DataCollector.get_coordinates.
  destruct (DataCollector.geo_api w city_name) as [[ | place others] | ];
    try discriminate.
  destruct (negb _ || negb _); [discriminate | ].
  destruct (DataCollector.weather_api w _ _); [ | discriminate].
  destruct (DataCollector.air_pollution_api w _ _); [ | discriminate].
  cbn [fst]. intros Hd. apply parse_data_inv in Hd. tauto.
Qed.

Lemma last_all_equal {A} (l : list A) (v : A) :
  Forall (fun x => x = v) l -> l <> [] -> last l = Some v.
Proof.
  intros Hall Hne. destruct (last l) as [x | ] eqn:Hlast.
  - apply last_Some_elem_of in Hlast.
    rewrite Forall_forall in Hall. f_equal. apply Hall. exact Hlast.
  - apply last_None in Hlast. contradiction.
Qed.

Lemma collected_lines_of_city (as_row : DataCollector.reading -> App.row)
    (w : DataCollector.world) (cities existing_cities : list string) (city_name : string)
    (d : DataCollector.reading) :
  (forall d', App.col_city (as_row d') = DataCollector.city d') ->
  city_name ∈ cities ->
  fst (DataCollector.fetch_weather_data w city_name []) = Some d ->
  let lines :=
    map as_row
      (omap (fun c => fst (DataCollector.fetch_weather_data w c [])) cities) in
  Forall (fun r => r = as_row d) (filter (fun r => App.col_city r = city_name) lines) /\
  filter (fun r => App.col_city r = city_name) lines <> [].
Proof.
  intros Hcity Hin Hd lines. split.
  - apply Forall_forall. intros r Hr.
    apply list_elem_of_filter in Hr as [Hname Hr].
    subst lines. apply list_elem_of_fmap in Hr as (d' & -> & Hd').
    apply list_elem_of_omap in Hd' as (c & Hc & Hfetch).
    rewrite Hcity in Hname.
    apply fetch_weather_data_city in Hfetch as Hsame.
    assert (c = city_name) by congruence. subst c.
    congruence.
  - intros Hnil.
    assert (Hr : as_row d ∈ filter (fun r => App.col_city r = city_name) lines).
    { apply list_elem_of_filter. split.
      - rewrite Hcity. apply (fetch_weather_data_city _ _ _ _ Hd).
      - subst lines. apply list_elem_of_fmap. exists d. split; [reflexivity | ].
        apply list_elem_of_omap. exists city_name. split; assumption. }
    rewrite Hnil in Hr. apply elem_of_nil in Hr. exact Hr.
Qed.

(** X4: a city collected into a readable (or missing) dataset file is served
    from it afterwards.  If [collect_and_save] fetched a reading for the
    city, the lines keep the city's name, and the humidity, pressure, clouds
    and aqi cells of the reading's line are filled, then an application
    started on the new file answers a request for that city, when live
    acquisition fails, with that line. *)
Theorem collected_city_is_served (as_row : DataCollector.reading -> App.row)
    (w : DataCollector.world) (cities : option (list string)) (file : App.dataset_file)
    (log : list DataCollector.request) (city_name : string) (d : DataCollector.reading)
    (humidity pressure clouds aqi : Z)
    (predictor : Predict.predictor) (later : DataCollector.world) (now : datetime)
    (log' : list DataCollector.request) :
  readable file ->
  (forall d', App.col_city (as_row d') = DataCollector.city d') ->
  city_name ∈ default Config.CITIES cities ->
  fst (DataCollector.fetch_weather_data w city_name []) = Some d ->
  whole (App.col_humidity (as_row d)) humidity ->
  whole (App.col_pressure (as_row d)) pressure ->
  whole (App.col_clouds (as_row d)) clouds ->
  whole (App.col_aqi (as_row d)) aqi ->
  fst (DataCollector.fetch_weather_data later city_name log') = None ->
  let file' := snd (fst (Collect.collect_and_save as_row w cities file log)) in
  exists advice,
    Predict.get_health_advice (Some aqi) (App.cell (App.col_pm2_5 (as_row d)))
    = Return advice /\
    fst (App.predict predictor (App.load_sample_data file') later now (Some city_name) log')
    = App.Response 200 true
        (App.Data (shown city_name (as_row d) humidity pressure clouds aqi (Some advice))).
Proof.
  intros Hfile Hcity Hin Hd Hh Hp Hc Ha Hlive file'.
  rewrite (live_failure_falls_back _ _ _ _ _ _ Hlive).
  destruct (collected_lines_of_city as_row w _ [] city_name d Hcity Hin Hd)
    as [Hall Hne].
  set (lines := map as_row _) in *.
  assert (Hfetched : exists existing, file' = App.Csv (existing ++ lines)).
  { subst file'.
    pose proof (collect_and_save_lines as_row w cities file log) as Hsave.
    cbn zeta in Hsave. fold lines in Hsave. rewrite Hsave.
    destruct (omap _ _) as [ | d0 fetched] eqn:Hfetched.
    - exfalso. apply Hne. subst lines. rewrite ?Hfetched. reflexivity.
    - destruct file as [ | e | existing]; [exists [] | contradiction | exists existing];
        reflexivity. }
  destruct Hfetched as [existing ->].
  apply fallback_serves; try assumption.
  rewrite filter_app.
  destruct (filter _ existing ++ filter _ lines) eqn:Hjoin.
  - apply app_eq_nil in Hjoin. tauto.
  - rewrite <- Hjoin, last_app, (last_all_equal _ _ Hall Hne). reflexivity.
Qed.

(** ** The endpoints of the application *)

Lemma predict_from_without_aqi self now city_name d :
  DataCollector.aqi d = None ->
  exists e, Predict.predict_from self now city_name d = Raise e.
Proof.
  intros Haqi. unfold Predict.predict_from.
  destruct (Predict.ml_predictions self now d) as [ml | e]; cbn [obind]; [ | eauto].
  rewrite Haqi. cbn. eauto.
Qed.

(** X5: a reading that was fetched but has no [aqi] is not served by
    [predict]: [predict_for_city] raises at the health advice whatever
    artifacts are loaded, and [predict] answers from the fallback, while
    [get_weather] returns that reading with status 200. *)
Theorem missing_aqi_falls_back (predictor : Predict.predictor) (g : App.globals)
    (w : DataCollector.world) (now : datetime) (city_name : string)
    (log log' : list DataCollector.request) (d : DataCollector.reading) :
  DataCollector.fetch_weather_data w city_name log = (Some d, log') ->
  DataCollector.aqi d = None ->
  (exists e, Predict.predict_for_city predictor w now city_name log = (Raise e, log')) /\
  App.predict predictor g w now (Some city_name) log
  = (App.fallback_response predictor g city_name, log') /\
  Chat.get_weather w city_name log
  = (Chat.WeatherResponse 200 true (Chat.Reading d), log').
Proof.
  intros Hfetch Haqi.
  destruct (predict_from_without_aqi predictor now city_name d Haqi) as [e He].
  assert (Hlive : Predict.predict_for_city predictor w now city_name log = (Raise e, log')).
  { unfold Predict.predict_for_city. rewrite Hfetch, He. reflexivity. }
  split; [eauto | split].
  - unfold App.predict.
    change (default Config.DEFAULT_CITY (Some city_name)) with city_name.
    rewrite Hlive. reflexivity.
  - unfold Chat.get_weather. rewrite Hfetch. reflexivity.
Qed.

Lemma missing_aqi_falls_back_witness :
  App.predict (all_models 2) (App.load_sample_data (App.Csv xy_rows)) no_air_list noon
    (Some "X") []
  = (App.Response 200 true
       (App.Data (shown "X" x_new 40 1010 20 3 (Some Predict.advice_moderate))),
     [ DataCollector.GeoRequest "X";
       DataCollector.WeatherRequest (PyNum (286 # 10)) (PyNum (772 # 10));
       DataCollector.AirPollutionRequest (PyNum (286 # 10)) (PyNum (772 # 10)) ]).
Proof.
  destruct (missing_aqi_falls_back (all_models 2) (App.load_sample_data (App.Csv xy_rows))
              no_air_list noon "X" [] _ _ eq_refl eq_refl) as (_ & Hpredict & _).
  rewrite Hpredict. vm_compute. reflexivity.
Defined.

(** X6: when [predict_for_city] returns a prediction, [get_weather] for the
    same city returns status 200 with a reading of which the prediction's
    "current" block is the display, under the requested name; and
    [get_weather] answers 404 "City not found" exactly when
    [predict_for_city] returns its error dictionary. *)
Theorem live_answer_shows_the_reading (self : Predict.predictor) (w : DataCollector.world)
    (now : datetime) (city_name : string) (log : list DataCollector.request) :
  (forall p log',
     Predict.predict_for_city self w now city_name log
     = (Return (Predict.Predictions p), log') ->
     exists d,
       Chat.get_weather w city_name log
       = (Chat.WeatherResponse 200 true (Chat.Reading d), log') /\
       Predict.p_current p = current_of d /\ Predict.p_city p = city_name /\
       Predict.p_timestamp p = Predict.str_datetime (DataCollector.clock w)) /\
  (forall log',
     Chat.get_weather w city_name log
     = (Chat.WeatherResponse 404 false (Chat.NotFound "City not found"), log')
     <-> Predict.predict_for_city self w now city_name log
         = (Return (Predict.ErrorDict ("Could not fetch data for " +:+ city_name)), log')).
Proof.
  unfold Chat.get_weather, Predict.predict_for_city.
  destruct (DataCollector.fetch_weather_data w city_name log) as [[d | ] log1] eqn:Hfetch.
  - split.
    + intros p log'. unfold Predict.predict_from.
      destruct (Predict.ml_predictions self now d); cbn [obind]; [ | intros [=]].
      destruct (Predict.get_health_advice _ _); cbn [obind]; [ | intros [=]].
      intros [= <- <-]. exists d. repeat split. cbn.
      pose proof (fetch_weather_data_stamp w city_name log d) as Hstamp.
      rewrite Hfetch in Hstamp. rewrite (Hstamp eq_refl). reflexivity.
    + intros log'. split; [intros [=] | ].
      destruct (Predict.predict_from self now city_name d); intros [=].
  - split; [intros p log' [=] | ].
    intros log'. split; intros [= <-]; reflexivity.
Qed.

(** ** The chat endpoint *)

Lemma chat_from_predict (lower : string -> string) (predictor : Predict.predictor)
    (g : App.globals) (w : DataCollector.world) (now : datetime) (payload : Chat.payload)
    (log : list DataCollector.request) :
  let asked := App.predict predictor g w now (Chat.city payload) log in
  Chat.chat lower predictor g w now payload log
  = (chat_of_predict (lower (default "" (Chat.message payload)))
       (default Config.DEFAULT_CITY (Chat.city payload)) (fst asked),
     snd asked).
Proof.
  cbn zeta. unfold Chat.chat, App.predict.
  destruct (Predict.predict_for_city predictor w now _ log) as [live log1].
  destruct live as [[text | p] | e]; try reflexivity;
    unfold App.fallback_response;
    (destruct (App.get_sample_city_data g _) as [[fallback | ] | e']; cbn [obind fst snd];
     [ | reflexivity | reflexivity]);
    (destruct (Predict.get_health_advice _ _) as [advice | e'']; reflexivity).
Qed.

(** X7: [chat] answers as [predict] would for the same city, followed by the
    choice of the reply: where [predict] serves data, [chat] replies from the
    same data (or with the help text); where [predict] answers 404 for want
    of data, [chat] answers with status 200, [success] false and the no-data
    reply; where [predict] answers 500, [chat] answers 500 with the same
    text.  Both send the same requests. *)
Theorem chat_is_predict_then_reply (lower : string -> string)
    (predictor : Predict.predictor) (g : App.globals) (w : DataCollector.world)
    (now : datetime) (payload : Chat.payload) (log : list DataCollector.request) :
  let asked := App.predict predictor g w now (Chat.city payload) log in
  let answer := Chat.chat lower predictor g w now payload log in
  snd answer = snd asked /\
  (forall p, App.payload (fst asked) = App.Data p ->
     Chat.c_status (fst answer) = 200%nat /\ Chat.c_success (fst answer) = true /\
     (Chat.c_data (fst answer) = Some p \/
      Chat.c_data (fst answer) = None /\ Chat.c_reply (fst answer) = Chat.HelpReply)) /\
  (fst asked = App.Response 404 false (App.Error App.no_data_error) ->
   fst answer = Chat.ChatResponse 200 false Chat.NoDataReply None) /\
  (forall text, fst asked = App.Response 500 false (App.Error text) ->
   fst answer = Chat.ChatResponse 500 false (Chat.ErrorReply text) None).
Proof.
  cbn zeta. rewrite chat_from_predict. cbn [fst snd].
  destruct (App.predict predictor g w now (Chat.city payload) log) as [r log1].
  cbn [fst snd]. unfold chat_of_predict.
  split; [reflexivity | split; [ | split]].
  - intros p ->.
    destruct (Chat.mentions Chat.weather_words _); [cbn; auto | ].
    destruct (Chat.mentions Chat.air_words _); cbn; auto.
  - intros ->. reflexivity.
  - intros text ->. reflexivity.
Qed.

Lemma append_cons (c : Ascii.ascii) (a b : string) :
  String c a +:+ b = String c (a +:+ b).
Proof. reflexivity. Qed.

Lemma append_empty (b : string) : "" +:+ b = b.
Proof. reflexivity. Qed.

Lemma prefix_occurs (word message : string) :
  String.prefix word message = true <-> exists after, message = word +:+ after.
Proof.
  revert message. induction word as [ | c word IH]; intros message.
  - destruct message; simpl; split; eauto.
  - destruct message as [ | c' message]; simpl.
    + split; [discriminate | intros [after H]; rewrite append_cons in H; discriminate H].
    + destruct (Ascii.ascii_dec c c') as [-> | Hne].
      * rewrite IH. split; intros [after H]; exists after; rewrite append_cons in *;
          congruence.
      * split; [discriminate | ].
        intros [after H]. rewrite append_cons in H. injection H as H _. congruence.
Qed.

Lemma contains_occurs (word message : string) :
  Chat.contains word message = true <-> occurs word message.
Proof.
  unfold occurs. induction message as [ | c message IH].
  - cbn [Chat.contains]. rewrite orb_false_r, prefix_occurs. split.
    + intros [after H]. exists "", after. exact H.
    + intros (before & after & H). destruct before as [ | c before].
      * rewrite append_empty in H. eauto.
      * rewrite append_cons in H. discriminate H.
  - cbn [Chat.contains]. rewrite orb_true_iff, IH, prefix_occurs. split.
    + intros [[after H] | (before & after & H)].
      * exists "", after. exact H.
      * exists (String c before), after. rewrite append_cons. congruence.
    + intros (before & after & H). destruct before as [ | c' before].
      * left. rewrite append_empty in H. eauto.
      * right. rewrite append_cons in H. injection H as <- H. eauto.
Qed.

Lemma mentions_occurs (words : list string) (message : string) :
  Chat.mentions words message = true <-> exists word, word ∈ words /\ occurs word message.
Proof.
  unfold Chat.mentions. induction words as [ | k words IH]; simpl.
  - split; [discriminate | intros (word & Hin & _); apply elem_of_nil in Hin; contradiction].
  - rewrite orb_true_iff, IH, contains_occurs. split.
    + intros [H | (word & Hin & H)].
      * exists k. split; [apply list_elem_of_here | exact H].
      * exists word. split; [apply list_elem_of_further | ]; assumption.
    + intros (word & Hin & H). apply elem_of_cons in Hin as [-> | Hin]; eauto.
Qed.

(** X8: when data could be obtained, the reply of [chat] is chosen by the
    lowered message alone: the weather reply if one of "weather",
    "temperature", "forecast" occurs in it, also when an air word occurs
    too; otherwise the air reply if one of "aqi", "air", "pollution" occurs;
    otherwise the help text, without the data. *)
Theorem chat_reply_by_keywords (lower : string -> string)
    (predictor : Predict.predictor) (g : App.globals) (w : DataCollector.world)
    (now : datetime) (payload : Chat.payload) (log : list DataCollector.request)
    (p : Predict.prediction) (advice : string) :
  fst (App.predict predictor g w now (Chat.city payload) log)
  = App.Response 200 true (App.Data p) ->
  Predict.p_health_advice p = Some advice ->
  let lowered := lower (default "" (Chat.message payload)) in
  let city := default Config.DEFAULT_CITY (Chat.city payload) in
  let answer := fst (Chat.chat lower predictor g w now payload log) in
  let weather := exists word, word ∈ ["weather"; "temperature"; "forecast"]
                              /\ occurs word lowered in
  let air := exists word, word ∈ ["aqi"; "air"; "pollution"] /\ occurs word lowered in
  (weather ->
   answer = Chat.ChatResponse 200 true
              (Chat.WeatherReply city (Predict.p_current p) advice) (Some p)) /\
  (~ weather -> air ->
   answer = Chat.ChatResponse 200 true
              (Chat.AirReply city (Predict.p_current p) advice) (Some p)) /\
  (~ weather -> ~ air -> answer = Chat.ChatResponse 200 true Chat.HelpReply None).
Proof.
  intros Hasked Hadvice lowered city answer weather air.
  subst answer. rewrite chat_from_predict. cbn [fst]. rewrite Hasked.
  unfold chat_of_predict. cbn [App.payload]. rewrite Hadvice. cbn [default].
  fold lowered city.
  pose proof (mentions_occurs Chat.weather_words lowered) as Hw.
  pose proof (mentions_occurs Chat.air_words lowered) as Ha.
  fold weather in Hw. fold air in Ha.
  destruct (Chat.mentions Chat.weather_words lowered).
  - repeat split; intros; try reflexivity; exfalso; tauto.
  - assert (~ weather) by (intros H; apply Hw in H; discriminate H).
    destruct (Chat.mentions Chat.air_words lowered).
    + repeat split; intros; try reflexivity; exfalso; tauto.
    + assert (~ air) by (intros H'; apply Ha in H'; discriminate H').
      repeat split; intros; try reflexivity; exfalso; tauto.
Qed.

(** ** Health advice *)

(** X9: the advice never gets milder when the air gets worse: for a higher
    or equal [aqi] and a higher or equal PM2.5 reading, the advice text is
    the same or a more severe one (good, then moderate, then poor). *)
Theorem health_advice_monotone (aqi aqi' : Z) (pm25 pm25' : Q) :
  (aqi <= aqi')%Z -> (pm25 <= pm25')%Q ->
  exists advice advice',
    Predict.get_health_advice (Some aqi) (PyNum pm25) = Return advice /\
    Predict.get_health_advice (Some aqi') (PyNum pm25') = Return advice' /\
    (advice_rank advice <= advice_rank advice')%nat.
Proof.
  intros Haqi Hpm. do 2 eexists.
  split; [apply health_advice_value | split; [apply health_advice_value | ]].
  cbn [above_55b].
  destruct (Z.leb_spec 4 aqi), (Z.leb_spec 4 aqi'); try lia; cbn [orb];
    try (vm_compute; lia).
  - destruct (Qltb 55 pm25), (Qltb 55 pm25'), (aqi =? 3)%Z; vm_compute; lia.
  - destruct (Qltb 55 pm25) eqn:H55, (Qltb 55 pm25') eqn:H55'.
    + vm_compute; lia.
    + apply Qltb_lt in H55. apply Qltb_ge in H55'.
      exfalso. apply (Qlt_irrefl 55).
      eapply Qlt_le_trans; [exact H55 | ]. eapply Qle_trans; eassumption.
    + destruct (aqi =? 3)%Z, (aqi' =? 3)%Z; vm_compute; lia.
    + destruct (Z.eqb_spec aqi 3), (Z.eqb_spec aqi' 3); vm_compute; lia.
Qed.

Lemma health_advice_monotone_witness :
  exists advice advice',
    Predict.get_health_advice (Some 3%Z) (PyNum 10) = Return advice /\
    Predict.get_health_advice (Some 3%Z) (PyNum 60) = Return advice' /\
    (advice_rank advice <= advice_rank advice')%nat.
Proof.
  apply health_advice_monotone; [lia | discriminate].
Defined.

(** ** The selection loop *)

Section Selection.
Context {fitted : Type} (model_predict : fitted -> list (list Q) -> list Q).
Context (X_train X_test : list (list Q)) (y_train y_test : list Q).

Local Abbreviation run :=
  (TrainModel.evaluate fitted model_predict X_train X_test y_train y_test).

Lemma evaluate_from_best todo scores best_model best_score :
  scored model_predict X_train X_test y_train y_test todo scores ->
  (Forall (fun m => (best_score <= m)%Q) scores /\
   run todo (Some best_model) (Some best_score)
   = Return (Some best_model, Some best_score)) \/
  exists i model mae,
    first_best X_train y_train todo scores i model mae /\ (mae < best_score)%Q /\
    run todo (Some best_model) (Some best_score) = Return (Some model, Some mae).
Proof.
  intros Hscored. revert best_model best_score.
  induction Hscored as [ | [name learner] mae todo scores Hmae Hrest IH];
    intros best_model best_score.
  - left. split; [constructor | reflexivity].
  - cbn [TrainModel.evaluate]. cbn [snd] in Hmae. rewrite Hmae.
    cbn [obind TrainModel.below].
    destruct (Qltb mae best_score) eqn:Hlt.
    + apply Qltb_lt in Hlt. right.
      destruct (IH (learner X_train y_train) mae)
        as [[Hall Hrun] | (i & model & mae' & (Hcand & Hscore & Hmin & Hfirst) & Hlt' & Hrun)].
      * exists 0%nat, (learner X_train y_train), mae.
        split; [ | split; [exact Hlt | exact Hrun]].
        split; [exists name, learner; split; reflexivity | ].
        split; [reflexivity | ]. split.
        -- intros [ | j] m Hm; cbn in Hm.
           ++ injection Hm as <-. apply Qle_refl.
           ++ rewrite Forall_forall in Hall. apply Hall.
              apply list_elem_of_lookup. eauto.
        -- intros j m Hj. lia.
      * exists (S i), model, mae'.
        split; [ | split; [eapply Qlt_trans; eassumption | exact Hrun]].
        split; [exact Hcand | ]. split; [exact Hscore | ]. split.
        -- intros [ | j] m Hm; cbn in Hm.
           ++ injection Hm as <-. apply Qlt_le_weak. exact Hlt'.
           ++ eapply Hmin. exact Hm.
        -- intros [ | j] m Hj Hm; cbn in Hm.
           ++ injection Hm as <-. exact Hlt'.
           ++ eapply Hfirst; [ | exact Hm]. lia.
    + apply Qltb_ge in Hlt.
      destruct (IH best_model best_score)
        as [[Hall Hrun] | (i & model & mae' & (Hcand & Hscore & Hmin & Hfirst) & Hlt' & Hrun)].
      * left. split; [constructor; assumption | exact Hrun].
      * right. exists (S i), model, mae'.
        split; [ | split; [exact Hlt' | exact Hrun]].
        split; [exact Hcand | ]. split; [exact Hscore | ]. split.
        -- intros [ | j] m Hm; cbn in Hm.
           ++ injection Hm as <-. apply Qlt_le_weak.
              eapply Qlt_le_trans; eassumption.
           ++ eapply Hmin. exact Hm.
        -- intros [ | j] m Hj Hm; cbn in Hm.
           ++ injection Hm as <-. eapply Qlt_le_trans; eassumption.
           ++ eapply Hfirst; [ | exact Hm]. lia.
Qed.

Lemma evaluate_from_start todo scores :
  scored model_predict X_train X_test y_train y_test todo scores ->
  todo <> [] ->
  exists i model mae,
    first_best X_train y_train todo scores i model mae /\
    run todo None None = Return (Some model, Some mae).
Proof.
  intros Hscored Hne.
  destruct Hscored as [ | [name learner] mae todo scores Hmae Hrest]; [contradiction | ].
  cbn [TrainModel.evaluate]. cbn [snd] in Hmae. rewrite Hmae.
  cbn [obind TrainModel.below].
  destruct (evaluate_from_best todo scores (learner X_train y_train) mae Hrest)
    as [[Hall Hrun] | (i & model & mae' & (Hcand & Hscore & Hmin & Hfirst) & Hlt' & Hrun)].
  - exists 0%nat, (learner X_train y_train), mae. split; [ | exact Hrun].
    split; [exists name, learner; split; reflexivity | ].
    split; [reflexivity | ]. split.
    + intros [ | j] m Hm; cbn in Hm.
      * injection Hm as <-. apply Qle_refl.
      * rewrite Forall_forall in Hall. apply Hall. apply list_elem_of_lookup. eauto.
    + intros j m Hj. lia.
  - exists (S i), model, mae'. split; [ | exact Hrun].
    split; [exact Hcand | ]. split; [exact Hscore | ]. split.
    + intros [ | j] m Hm; cbn in Hm.
      * injection Hm as <-. apply Qlt_le_weak. exact Hlt'.
      * eapply Hmin. exact Hm.
    + intros [ | j] m Hj Hm; cbn in Hm.
      * injection Hm as <-. exact Hlt'.
      * eapply Hfirst; [ | exact Hm]. lia.
Qed.
End Selection.

(** X10: the selection loop of [train_temperature_model], run on any list of
    candidates whose errors can all be computed, keeps the first candidate
    of lowest mean absolute error: the kept model is candidate [i] fitted on
    the training part, its score is the lowest of all, and every candidate
    before it scored strictly higher. *)
Theorem evaluate_keeps_first_best (fitted : Type)
    (model_predict : fitted -> list (list Q) -> list Q)
    (X_train X_test : list (list Q)) (y_train y_test : list Q)
    (todo : list (string * (list (list Q) -> list Q -> fitted))) (scores : list Q) :
  scored model_predict X_train X_test y_train y_test todo scores ->
  todo <> [] ->
  exists i name learner mae,
    todo !! i = Some (name, learner) /\ scores !! i = Some mae /\
    TrainModel.evaluate fitted model_predict X_train X_test y_train y_test todo None None
    = Return (Some (learner X_train y_train), Some mae) /\
    (forall j m, scores !! j = Some m -> (mae <= m)%Q) /\
    (forall j m, (j < i)%nat -> scores !! j = Some m -> (mae < m)%Q).
Proof.
  intros Hscored Hne.
  destruct (evaluate_from_start model_predict X_train X_test y_train y_test todo scores
              Hscored Hne)
    as (i & model & mae & ((name & learner & Hcand & ->) & Hscore & Hmin & Hfirst) & Hrun).
  exists i, name, learner, mae. auto.
Qed.

(** ** The label encoder *)

Lemma before_trans (a b c : string) : before a b -> before b c -> before a c.
Proof.
  unfold before. intros Hab Hbc.
  apply OrderedTypeEx.String_as_OT.cmp_lt.
  eapply OrderedTypeEx.String_as_OT.lt_trans;
    apply OrderedTypeEx.String_as_OT.cmp_lt; eassumption.
Qed.

Lemma before_irrefl (a : string) : ~ before a a.
Proof.
  unfold before. intros H.
  assert (String.compare a a = Eq) by (apply OrderedTypeEx.String_as_OT.cmp_eq; reflexivity).
  congruence.
Qed.

Lemma after_before (a b : string) : String.compare a b = Gt -> before b a.
Proof.
  unfold before. intros H. rewrite String.compare_antisym, H. reflexivity.
Qed.

Lemma insert_label_elem (s x : string) (classes : list string) :
  x ∈ TrainModel.insert_label s classes <-> x = s \/ x ∈ classes.
Proof.
  induction classes as [ | c rest IH]; cbn [TrainModel.insert_label].
  - rewrite list_elem_of_singleton. split; [auto | intros [H | H]; [exact H | ]].
    apply elem_of_nil in H. contradiction.
  - destruct (String.compare s c) eqn:Hcmp.
    + apply String.compare_eq_iff in Hcmp. subst c.
      rewrite elem_of_cons. tauto.
    + rewrite elem_of_cons. tauto.
    + rewrite !elem_of_cons, IH. tauto.
Qed.

Lemma classes_elem (y : list string) (x : string) : x ∈ TrainModel.classes_ y <-> x ∈ y.
Proof.
  unfold TrainModel.classes_. induction y as [ | s y IH]; cbn [foldr].
  - reflexivity.
  - rewrite insert_label_elem, IH, elem_of_cons. reflexivity.
Qed.

Lemma insert_label_sorted (s : string) (classes : list string) :
  StronglySorted before classes -> StronglySorted before (TrainModel.insert_label s classes).
Proof.
  induction 1 as [ | c rest Hrest IH Hc]; cbn [TrainModel.insert_label].
  - repeat constructor.
  - destruct (String.compare s c) eqn:Hcmp.
    + constructor; assumption.
    + constructor; [constructor; assumption | ].
      constructor; [exact Hcmp | ].
      eapply Forall_impl; [exact Hc | ]. intros x Hx. eapply before_trans; eassumption.
    + constructor; [exact IH | ].
      apply Forall_forall. intros x Hx. apply insert_label_elem in Hx as [-> | Hx].
      * apply after_before. exact Hcmp.
      * rewrite Forall_forall in Hc. apply Hc. exact Hx.
Qed.

Lemma classes_sorted (y : list string) : StronglySorted before (TrainModel.classes_ y).
Proof.
  unfold TrainModel.classes_. induction y as [ | s y IH]; cbn [foldr].
  - constructor.
  - apply insert_label_sorted. exact IH.
Qed.

Lemma sorted_NoDup (l : list string) : StronglySorted before l -> NoDup l.
Proof.
  induction 1 as [ | c rest Hrest IH Hc]; constructor; [ | exact IH].
  intros Hin. rewrite Forall_forall in Hc. apply (before_irrefl c). apply Hc. exact Hin.
Qed.

Lemma transform_lookup (classes : list string) (label : string) (code : nat) :
  TrainModel.transform classes label = Some code -> classes !! code = Some label.
Proof.
  unfold TrainModel.transform. intros H.
  apply fmap_Some in H as ([i x] & Hfind & ->).
  apply list_find_Some in Hfind as (Hx & -> & _). exact Hx.
Qed.

Lemma lookup_transform (classes : list string) (label : string) (code : nat) :
  NoDup classes -> classes !! code = Some label ->
  TrainModel.transform classes label = Some code.
Proof.
  intros Hnodup Hlookup. unfold TrainModel.transform.
  apply fmap_Some. exists (code, label). split; [ | reflexivity].
  apply list_find_Some. split; [exact Hlookup | split; [reflexivity | ]].
  intros j y Hj Hlt ->.
  pose proof (NoDup_lookup _ _ _ _ Hnodup Hj Hlookup). lia.
Qed.

(** X11: the label encoder as the weather trainer uses it.  The classes are
    the distinct labels of the training column, without repetition; every
    label of the column is encoded to a code that decodes back to it, and
    every code that decodes to a label is the code of that label. *)
Theorem label_encoder_round_trip (y : list string) :
  let classes := TrainModel.classes_ y in
  NoDup classes /\
  (forall label, label ∈ classes <-> label ∈ y) /\
  (forall label, label ∈ y ->
     exists code, TrainModel.transform classes label = Some code /\
                  (code < length classes)%nat /\
                  TrainModel.inverse_transform classes (Z.of_nat code) = Some label) /\
  (forall code label,
     TrainModel.inverse_transform classes code = Some label ->
     TrainModel.transform classes label = Some (Z.to_nat code)) /\
  Forall is_Some (TrainModel.fit_transform y).
Proof.
  intros classes.
  assert (Hnodup : NoDup classes) by (apply sorted_NoDup, classes_sorted).
  assert (Hencode : forall label, label ∈ y ->
            exists code, TrainModel.transform classes label = Some code /\
                         classes !! code = Some label).
  { intros label Hin. apply classes_elem in Hin.
    apply list_elem_of_lookup in Hin as [code Hcode].
    exists code. split; [apply lookup_transform; assumption | exact Hcode]. }
  split; [exact Hnodup | split; [apply classes_elem | split; [ | split]]].
  - intros label Hin. destruct (Hencode label Hin) as (code & Hcode & Hlookup).
    exists code. split; [exact Hcode | split].
    + apply lookup_lt_Some in Hlookup. exact Hlookup.
    + unfold TrainModel.inverse_transform.
      assert (Hpos : (Z.of_nat code <? 0)%Z = false) by (apply Z.ltb_ge; lia).
      rewrite Hpos, Nat2Z.id. exact Hlookup.
  - intros code label. unfold TrainModel.inverse_transform.
    destruct (code <? 0)%Z; [discriminate | ].
    apply lookup_transform. exact Hnodup.
  - unfold TrainModel.fit_transform. apply Forall_forall. intros c Hc.
    apply list_elem_of_fmap in Hc as (label & -> & Hin).
    destruct (Hencode label Hin) as (code & Hcode & _).
    fold classes. rewrite Hcode. eexists. reflexivity.
Qed.

Lemma prefix_pointwise {A} (l k : list A) :
  (forall i x, l !! i = Some x -> k !! i = Some x) -> l `prefix_of` k.
Proof.
  revert k. induction l as [ | x l IH]; intros k H.
  - apply prefix_nil.
  - destruct k as [ | x' k].
    + specialize (H 0%nat x eq_refl). discriminate H.
    + pose proof (H 0%nat x eq_refl) as H0. injection H0 as ->.
      apply prefix_cons. apply IH. intros i y Hy. exact (H (S i) y Hy).
Qed.

(** X12: the fixed list of [predict.py] decodes the codes of the label
    encoder rightly, for every label of the training column, exactly when
    the encoder's classes are a prefix of that list; and since the classes
    are sorted, exactly when the distinct labels are none, "Clear", "Clear"
    and "Clouds", or "Clear", "Clouds" and "Rain". *)
Theorem fixed_list_decodes_iff_prefix (y : list string) :
  (decodes_training_labels y
   <-> TrainModel.classes_ y `prefix_of` Predict.weather_classes) /\
  (decodes_training_labels y
   <-> TrainModel.classes_ y = [] \/ TrainModel.classes_ y = ["Clear"] \/
       TrainModel.classes_ y = ["Clear"; "Clouds"] \/
       TrainModel.classes_ y = ["Clear"; "Clouds"; "Rain"]).
Proof.
  assert (Hiff : decodes_training_labels y
                 <-> TrainModel.classes_ y `prefix_of` Predict.weather_classes).
  { unfold decodes_training_labels. split.
    - intros Hdecode. apply prefix_pointwise. intros i label Hi.
      apply (Hdecode label i).
      + apply classes_elem. apply list_elem_of_lookup. eauto.
      + apply lookup_transform; [apply sorted_NoDup, classes_sorted | exact Hi].
    - intros Hprefix label code _ Hcode. apply transform_lookup in Hcode.
      eapply prefix_lookup_Some; eassumption. }
  split; [exact Hiff | ]. rewrite Hiff. clear Hiff.
  pose proof (classes_sorted y) as Hsorted.
  destruct (TrainModel.classes_ y) as [ | c1 [ | c2 [ | c3 [ | c4 rest]]]].
  - split; [auto | intros _; apply prefix_nil].
  - split.
    + intros [k Hk]. injection Hk as <- _. auto.
    + intros [H | [H | [H | H]]]; try discriminate H; injection H as ->.
      exists (tail Predict.weather_classes). reflexivity.
  - split.
    + intros [k Hk]. injection Hk as <- <- _. auto.
    + intros [H | [H | [H | H]]]; try discriminate H; injection H as -> ->.
      exists (drop 2 Predict.weather_classes). reflexivity.
  - split.
    + intros [k Hk]. injection Hk as <- <- <- _. auto.
    + intros [H | [H | [H | H]]]; try discriminate H; injection H as -> -> ->.
      exists (drop 3 Predict.weather_classes). reflexivity.
  - split.
    + intros [k Hk]. injection Hk as <- <- <- <- _. exfalso.
      inversion Hsorted as [ | ? ? H1 _]; subst.
      inversion H1 as [ | ? ? H2 _]; subst.
      inversion H2 as [ | ? ? _ H3]; subst.
      inversion H3 as [ | ? ? Hbad _]; subst.
      vm_compute in Hbad. discriminate Hbad.
    + intros [H | [H | [H | H]]]; discriminate H.
Qed.

(** ** Imputation in [load_data] *)





(** ** Training columns and feature vectors *)

(** X15: the vectors that [predict_for_city] feeds to the three models have
    their entries in the order of the [features] lists of the three
    trainers: entry by entry, the value is the live value under the name of
    the training column (with [or 0] on [pm2_5] and [pm10]).  The names of
    the temperature list are columns of the frame, read in the order of
    [TrainModel.features]. *)
Theorem features_follow_training_columns (now : datetime) (d : DataCollector.reading) :
  Forall2 (feeds now d) (Predict.features_temp now d) LoadData.temperature_features /\
  Forall2 (feeds now d) (Predict.features_weather now d) LoadData.weather_features /\
  Forall2 (feeds now d) (Predict.features_humidity now d) LoadData.humidity_features /\
  (forall l s, sample_of_line l = Some s ->
     LoadData.values LoadData.temperature_features l
     = Some (map Some (TrainModel.features s))).
Proof.
  split; [ | split; [ | split]].
  1-3: repeat constructor; eexists; split; reflexivity.
  intros l s Hs. unfold sample_of_line in Hs.
  destruct l as [[timestamp city temperature feels_like temp_min temp_max pressure
                  humidity wind_speed wind_deg clouds weather_main weather_description
                  aqi pm2_5 pm10 co no2 o3 so2] stamp hour day_of_year month].
  cbn in Hs.
  destruct temperature; [ | discriminate Hs].
  destruct feels_like; [ | discriminate Hs].
  destruct temp_min; [ | discriminate Hs].
  destruct temp_max; [ | discriminate Hs].
  destruct pressure; [ | discriminate Hs].
  destruct humidity; [ | discriminate Hs].
  destruct wind_speed; [ | discriminate Hs].
  destruct clouds; [ | discriminate Hs].
  destruct pm2_5; [ | discriminate Hs].
  destruct pm10; [ | discriminate Hs].
  injection Hs as <-. reflexivity.
Qed.

(** ** The collection loop *)

Section Rhythm.
Context (as_row : DataCollector.reading -> App.row) (worlds : nat -> DataCollector.world).
Context (time_sleep next_collection_at : Q -> outcome unit).
Context (interval_hours : Q) (total_collections : nat).

Local Abbreviation pass :=
  (AutoCollect.collection as_row worlds time_sleep next_collection_at interval_hours
     total_collections).
Local Abbreviation passes :=
  (AutoCollect.collections as_row worlds time_sleep next_collection_at interval_hours
     total_collections).
Local Abbreviation seconds := (AutoCollect.interval_seconds interval_hours).

Lemma last_pass (i : nat) :
  (Z.of_nat i <? Z.of_nat total_collections - 1)%Z = (S i <? total_collections)%nat.
Proof.
  destruct (Nat.ltb_spec (S i) total_collections) as [Hlt | Hge].
  - apply Z.ltb_lt. lia.
  - apply Z.ltb_ge. lia.
Qed.

Lemma wait_for_next_value (i : nat) :
  accepts time_sleep seconds -> accepts next_collection_at seconds ->
  AutoCollect.wait_for_next time_sleep next_collection_at interval_hours total_collections i
  = Return (if (S i <? total_collections)%nat then [AutoCollect.Sleep seconds] else []).
Proof.
  intros [waited Hsleep] [shown Hshown].
  unfold AutoCollect.wait_for_next, AutoCollect.sleep.
  rewrite last_pass, Hshown, Hsleep.
  destruct (S i <? total_collections)%nat; reflexivity.
Qed.

Lemma sleep_unless_last_value (i : nat) :
  accepts time_sleep seconds ->
  AutoCollect.sleep_unless_last time_sleep interval_hours total_collections i
  = Return (if (S i <? total_collections)%nat then [AutoCollect.Sleep seconds] else []).
Proof.
  intros [waited Hsleep]. unfold AutoCollect.sleep_unless_last, AutoCollect.sleep.
  rewrite last_pass, Hsleep.
  destruct (S i <? total_collections)%nat; reflexivity.
Qed.

Lemma pass_events (i : nat) (s : AutoCollect.run) :
  accepts time_sleep seconds -> accepts next_collection_at seconds ->
  exists s' report,
    pass i s = Return s' /\ reports_pass i report /\
    AutoCollect.events s'
    = AutoCollect.events s
      ++ report :: (if (S i <? total_collections)%nat then [AutoCollect.Sleep seconds] else []).
Proof.
  intros Hsleep Hshown. unfold AutoCollect.collection.
  destruct (Collect.collect_and_save as_row (worlds i) None _ _) as [[df file] requests].
  rewrite (wait_for_next_value i Hsleep Hshown), (sleep_unless_last_value i Hsleep).
  destruct df as [[df | ] | e]; cbn [obind]; eexists; eexists;
    (split; [reflexivity | split; [ | reflexivity]]); reflexivity.
Qed.

Lemma passes_events (n i : nat) (s : AutoCollect.run) :
  accepts time_sleep seconds -> accepts next_collection_at seconds ->
  (i + n = total_collections)%nat ->
  exists s' reports,
    passes n i s = Return s' /\ length reports = n /\
    (forall j report, reports !! j = Some report -> reports_pass (i + j) report) /\
    AutoCollect.events s'
    = AutoCollect.events s ++ between (AutoCollect.Sleep seconds) reports.
Proof.
  intros Hsleep Hshown. revert i s. induction n as [ | n IH]; intros i s Htotal.
  - exists s, []. cbn. rewrite app_nil_r. repeat split. intros j report [=].
  - destruct (pass_events i s Hsleep Hshown) as (s1 & report & Hpass & Hreport & Hevents).
    destruct (IH (S i) s1 ltac:(lia)) as (s' & reports & Hpasses & Hlen & Hnum & Hevents').
    exists s', (report :: reports). cbn [AutoCollect.collections]. rewrite Hpass.
    cbn [obind]. split; [exact Hpasses | ]. split; [cbn; lia | ]. split.
    + intros [ | j] r Hr; cbn in Hr.
      * injection Hr as <-. rewrite Nat.add_0_r. exact Hreport.
      * replace (i + S j)%nat with (S i + j)%nat by lia. apply Hnum. exact Hr.
    + rewrite Hevents', Hevents, <- app_assoc. f_equal.
      destruct reports as [ | r reports].
      * cbn [length] in Hlen. subst n.
        assert (H : (S i <? total_collections)%nat = false) by (apply Nat.ltb_ge; lia).
        rewrite H. reflexivity.
      * cbn [length] in Hlen.
        assert (H : (S i <? total_collections)%nat = true) by (apply Nat.ltb_lt; lia).
        rewrite H. reflexivity.
Qed.


End Rhythm.

(** X16: with an API key and an interval that [time.sleep] accepts and whose
    end can be shown as a date, a run of [auto_collect_data] in which Ctrl+C
    is not pressed makes exactly [total_collections] passes, numbered from 0
    in order, each reporting completion, nothing collected or a failure, and
    sleeps [interval_hours * 3600] seconds between two passes and not after
    the last one. *)
Theorem auto_collect_rhythm (as_row : DataCollector.reading -> App.row)
    (worlds : nat -> DataCollector.world) (time_sleep next_collection_at : Q -> outcome unit)
    (interval_hours : Q) (total_collections : nat)
    (api_key : option string) (file : App.dataset_file) (key : string) :
  Collect.init api_key = Return key ->
  accepts time_sleep (interval_hours * 3600)%Q ->
  accepts next_collection_at (interval_hours * 3600)%Q ->
  exists run reports,
    AutoCollect.auto_collect_data as_row worlds time_sleep next_collection_at
      interval_hours total_collections api_key file = Return run /\
    length reports = total_collections /\
    (forall i report, reports !! i = Some report -> reports_pass i report) /\
    AutoCollect.events run
    = between (AutoCollect.Sleep (interval_hours * 3600)%Q) reports.
Proof.
  intros Hkey Hsleep Hshown. unfold AutoCollect.auto_collect_data. rewrite Hkey.
  cbn [obind].
  destruct (passes_events as_row worlds time_sleep next_collection_at interval_hours
              total_collections total_collections 0 (AutoCollect.Run file [] [])
              Hsleep Hshown eq_refl)
    as (run & reports & Hrun & Hlen & Hnum & Hevents).
  exists run, reports. repeat split; assumption.
Qed.

Lemma grown_refl (file : App.dataset_file) : grown file file.
Proof.
  destruct file as [ | e | existing]; cbn; auto.
  exists []. rewrite app_nil_r. reflexivity.
Qed.

Lemma grown_trans (a b c : App.dataset_file) : grown a b -> grown b c -> grown a c.
Proof.
  destruct a as [ | e | existing]; cbn.
  - intros [-> | [added ->]]; cbn; [auto | ].
    intros [more ->]. right. eauto.
  - intros ->. cbn. auto.
  - intros [added ->]. cbn. intros [more ->]. exists (added ++ more).
    rewrite app_assoc. reflexivity.
Qed.

Lemma collect_and_save_grows (as_row : DataCollector.reading -> App.row)
    (w : DataCollector.world) (cities : option (list string))
    (file : App.dataset_file) (log : list DataCollector.request) :
  grown file (snd (fst (Collect.collect_and_save as_row w cities file log))).
Proof.
  pose proof (collect_and_save_lines as_row w cities file log) as Hsave.
  cbn zeta in Hsave. rewrite Hsave.
  destruct (omap _ _) as [ | d fetched]; [apply grown_refl | ].
  destruct file as [ | e | existing]; cbn; eauto.
Qed.

Section Growth.
Context (as_row : DataCollector.reading -> App.row) (worlds : nat -> DataCollector.world).
Context (time_sleep next_collection_at : Q -> outcome unit).
Context (interval_hours : Q) (total_collections : nat).

Lemma pass_grows (i : nat) (s s' : AutoCollect.run) :
  AutoCollect.collection as_row worlds time_sleep next_collection_at interval_hours
    total_collections i s = Return s' ->
  grown (AutoCollect.file s) (AutoCollect.file s').
Proof.
  unfold AutoCollect.collection.
  pose proof (collect_and_save_grows as_row (worlds i) None (AutoCollect.file s)
                (AutoCollect.requests s)) as Hgrown.
  destruct (Collect.collect_and_save as_row (worlds i) None _ _) as [[df file] requests].
  cbn [fst snd] in Hgrown.
  destruct df as [[df | ] | e];
    try destruct (AutoCollect.wait_for_next time_sleep next_collection_at interval_hours
                    total_collections i);
    destruct (AutoCollect.sleep_unless_last time_sleep interval_hours total_collections i);
    cbn [obind]; intros [= <-]; exact Hgrown.
Qed.

Lemma passes_grow (n i : nat) (s s' : AutoCollect.run) :
  AutoCollect.collections as_row worlds time_sleep next_collection_at interval_hours
    total_collections n i s = Return s' ->
  grown (AutoCollect.file s) (AutoCollect.file s').
Proof.
  revert i s. induction n as [ | n IH]; intros i s; cbn [AutoCollect.collections].
  - intros [= <-]. apply grown_refl.
  - destruct (AutoCollect.collection as_row worlds time_sleep next_collection_at
                interval_hours total_collections i s)
      as [s1 | e] eqn:Hpass; cbn [obind]; [ | discriminate].
    intros Hrest. eapply grown_trans; [eapply pass_grows; exact Hpass | ].
    eapply IH. exact Hrest.
Qed.
End Growth.

(** X17: a run of [auto_collect_data] only ever adds lines to the dataset:
    the lines the file had at the start are still there, in front and in
    order, at the end; a missing file stays missing or is created; a file
    that cannot be read is left as it is. *)
Theorem auto_collect_only_adds (as_row : DataCollector.reading -> App.row)
    (worlds : nat -> DataCollector.world) (time_sleep next_collection_at : Q -> outcome unit)
    (interval_hours : Q) (total_collections : nat)
    (api_key : option string) (file : App.dataset_file) (run : AutoCollect.run) :
  AutoCollect.auto_collect_data as_row worlds time_sleep next_collection_at interval_hours
    total_collections api_key file
  = Return run ->
  grown file (AutoCollect.file run).
Proof.
  unfold AutoCollect.auto_collect_data.
  destruct (Collect.init api_key); cbn [obind]; [ | discriminate].
  intros Hrun. apply passes_grow in Hrun. exact Hrun.
Qed.


(** ** Instances *)

Lemma collected_city_is_served_witness :
  let file' := snd (fst (Collect.collect_and_save csv_line online (Some ["Delhi"])
                           App.NoFile [])) in
  file' = App.Csv [csv_line delhi_reading] /\
  exists advice,
    Predict.get_health_advice (Some 2%Z) (App.cell (App.col_pm2_5 (csv_line delhi_reading)))
    = Return advice /\
    fst (App.predict no_models (App.load_sample_data file') offline noon (Some "Delhi") [])
    = App.Response 200 true
        (App.Data (shown "Delhi" (csv_line delhi_reading) 40 1012 20 2 (Some advice))).
Proof.
  split; [vm_compute; reflexivity | ].
  apply (collected_city_is_served csv_line online (Some ["Delhi"]) App.NoFile []
           "Delhi" delhi_reading 40 1012 20 2 no_models offline noon []).
  - exact I.
  - intros d'. reflexivity.
  - apply list_elem_of_here.
  - vm_compute. reflexivity.
  - apply (whole_intro 40).
  - apply (whole_intro 1012).
  - apply (whole_intro 20).
  - exists 2%Q. split; reflexivity.
  - reflexivity.
Defined.

Lemma chat_reply_by_keywords_witness :
  fst (Chat.chat lower_ascii no_models (App.load_sample_data (App.Csv xy_rows)) offline
         noon both_words [])
  = Chat.ChatResponse 200 true
      (Chat.WeatherReply "X"
         (Predict.p_current (shown "X" x_new 40 1010 20 3 (Some Predict.advice_moderate)))
         Predict.advice_moderate)
      (Some (shown "X" x_new 40 1010 20 3 (Some Predict.advice_moderate))).
Proof.
  refine (proj1 (chat_reply_by_keywords lower_ascii no_models
                   (App.load_sample_data (App.Csv xy_rows)) offline noon both_words []
                   (shown "X" x_new 40 1010 20 3 (Some Predict.advice_moderate))
                   Predict.advice_moderate _ eq_refl) _).
  - vm_compute. reflexivity.
  - exists "weather". split; [apply list_elem_of_here | ].
    exists "how is the ", " and the air in x?". reflexivity.
Defined.

Lemma evaluate_keeps_first_best_witness :
  exists i name learner mae,
    four_candidates !! i = Some (name, learner) /\ [2; 1; 1; 1]%Q !! i = Some mae /\
    TrainModel.evaluate Q constant_predict [] [[0%Q]] [] [24%Q] four_candidates None None
    = Return (Some (learner [] []), Some mae) /\
    (forall j m, [2; 1; 1; 1]%Q !! j = Some m -> (mae <= m)%Q) /\
    (forall j m, (j < i)%nat -> [2; 1; 1; 1]%Q !! j = Some m -> (mae < m)%Q).
Proof.
  apply (evaluate_keeps_first_best Q constant_predict [] [[0%Q]] [] [24%Q] four_candidates
           [2; 1; 1; 1]%Q).
  - repeat constructor.
  - discriminate.
Defined.

Lemma auto_collect_rhythm_witness :
  exists run reports,
    AutoCollect.auto_collect_data csv_line every_other sleep_nonnegative always_shown 2 3
      (Some "key") App.NoFile
    = Return run /\
    length reports = 3%nat /\
    (forall i report, reports !! i = Some report -> reports_pass i report) /\
    AutoCollect.events run = between (AutoCollect.Sleep (2 * 3600)%Q) reports.
Proof.
  apply (auto_collect_rhythm csv_line every_other sleep_nonnegative always_shown 2 3
           (Some "key") App.NoFile "key").
  - reflexivity.
  - exists tt. reflexivity.
  - exists tt. reflexivity.
Defined.

Lemma auto_collect_only_adds_witness :
  match AutoCollect.auto_collect_data csv_line every_other sleep_nonnegative always_shown
          2 3 (Some "key") (App.Csv xy_rows) with
  | Return run => grown (App.Csv xy_rows) (AutoCollect.file run)
  | Raise _ => False
  end.
Proof.
  destruct (AutoCollect.auto_collect_data csv_line every_other sleep_nonnegative
              always_shown 2 3 (Some "key") (App.Csv xy_rows)) as [run | e] eqn:Hrun.
  - exact (auto_collect_only_adds _ _ _ _ _ _ _ _ _ Hrun).
  - vm_compute in Hrun. discriminate Hrun.
Defined.


Example auto_collect_every_other :
  match AutoCollect.auto_collect_data csv_line every_other sleep_nonnegative always_shown
          2 3 (Some "key") App.NoFile with
  | Return run =>
      Some (map App.col_city
              (match AutoCollect.file run with App.Csv rows => rows | _ => [] end),
            AutoCollect.events run)
  | Raise _ => None
  end
  = Some (Config.CITIES ++ Config.CITIES,
          [ AutoCollect.Completed 0 8; AutoCollect.Sleep 7200; AutoCollect.Nothing 1;
            AutoCollect.Sleep 7200; AutoCollect.Completed 2 16 ]).
Proof. vm_compute. reflexivity. Qed.
